(** * The notification coordinator of [app/repositories/lightning.py]

    A shallow embedding of the module: its import-time configuration
    (lines 27-55), the validating front of [channel_open] (lines
    134-151), the start-up guard [register_lightning_listener] (lines
    180-204) and the three listener coroutines together with the two
    delayed tasks they spawn (lines 207-283), run on a model of the
    asyncio event loop in which every callback is one atomic step. *)

From Stdlib Require Import ZArith QArith Lia Lqa.
From Stdlib Require Import Floats.SpecFloat.
From Stdlib Require Import Strings.Ascii Strings.String.
From stdpp Require Import base option list strings.

Local Open Scope Z_scope.
Local Open Scope string_scope.

(** ** Exceptions and results *)

(** The exception classes the module raises or lets through. *)
Inductive exn : Type :=
| RuntimeError (msg : string)
| ValueError (msg : string)
| UndefinedValueError (option_name : string)
| NameError (name : string)
| IndexError (msg : string)
| NotImplementedError (args : list string)
| HTTPException (status_code : Z) (detail : string)
| BackendError (msg : string).

(** What awaiting a call gives back: a value, or a raised exception. *)
Inductive outcome (A : Type) : Type :=
| Returns (a : A)
| Raises (e : exn).

Arguments Returns {A} a.
Arguments Raises {A} e.

Definition HTTP_423_LOCKED : Z := 423.
Definition HTTP_501_NOT_IMPLEMENTED : Z := 501.

(** ** Import-time configuration (lines 27-55) *)

(** binary64 literals of the source, as mantissa and exponent. *)
Definition float_0_3 : spec_float := S754_finite false 5404319552844595 (-54).
Definition float_2_0 : spec_float := S754_finite false 4503599627370496 (-51).

(** The options [decouple.config] is asked for, after their [cast];
    [None] is an option that is not set. *)
Record Environ : Type := {
  env_platform : option string;
  env_ln_node : option string;
  env_gather_ln_info_interval : option spec_float;
  env_sse_notify_forward_successes : option bool;
  env_forwards_gather_interval : option spec_float
}.

(** The implementation module bound to the name [ln] (lines 30-41). *)
Inductive ln_impl : Type :=
| lnd_grpc
| cln_grpc
| cln_grpc_blitz.

(** The module's globals once its import has succeeded. *)
Record Settings : Type := {
  PLATFORM : string;
  ln_node : string;
  ln : option ln_impl;
  GATHER_INFO_INTERVALL : spec_float;
  ENABLE_FWD_NOTIFICATIONS : bool;
  FWD_GATHER_INTERVAL : spec_float
}.

(** [config(name)] without a default raises when the option is unset. *)
Definition config_required (name : string) (v : option string) : outcome string :=
  match v with
  | Some x => Returns x
  | None => Raises (UndefinedValueError name)
  end.

(** Lines 30-41; [raspiblitz] is the value of [APIPlatform.RASPIBLITZ]. *)
Definition import_ln (raspiblitz : string) (platform node : string) : option ln_impl :=
  if decide (node = "lnd_grpc") then Some lnd_grpc
  else if decide (node = "cln_grpc") then
    if decide (platform = raspiblitz) then Some cln_grpc_blitz else Some cln_grpc
  else None.

(** Python's [<] on floats. *)
Definition float_lt (x y : spec_float) : bool := SFltb x y.

(** Python's [<=] on floats. *)
Definition float_le (x y : spec_float) : bool := SFleb x y.

(** Executing the module body, lines 27-55. *)
Definition load_module (raspiblitz : string) (env : Environ) : outcome Settings :=
  match config_required "platform" (env_platform env) with
  | Raises e => Raises e
  | Returns platform =>
    match config_required "ln_node" (env_ln_node env) with
    | Raises e => Raises e
    | Returns node =>
      let impl := import_ln raspiblitz platform node in
      let gather := default float_2_0 (env_gather_ln_info_interval env) in
      let enable := default false (env_sse_notify_forward_successes env) in
      let fwd := default float_2_0 (env_forwards_gather_interval env) in
      if float_lt fwd float_0_3
      then Raises (RuntimeError "forwards_gather_interval cannot be less than 0.3 seconds")
      else Returns {| PLATFORM := platform; ln_node := node; ln := impl;
                      GATHER_INFO_INTERVALL := gather;
                      ENABLE_FWD_NOTIFICATIONS := enable;
                      FWD_GATHER_INTERVAL := fwd |}
    end
  end.

(** ** [channel_open] (lines 134-151) *)

(** Python's [needle in haystack] on [str]. *)
Fixpoint str_in (needle haystack : string) : bool :=
  String.prefix needle haystack ||
  match haystack with
  | EmptyString => false
  | String _ rest => str_in needle rest
  end.

(** The arguments of one [ln.channel_open_impl] invocation. *)
Record channel_open_call : Type := {
  call_local_funding_amount : Z;
  call_node_URI : string;
  call_target_confs : Z
}.

(** [channel_open] against a backend [channel_open_impl]; the second
    component lists the backend invocations made, in order. *)
Definition channel_open (channel_open_impl : Z -> string -> Z -> outcome string)
    (local_funding_amount : Z) (node_URI : string) (target_confs : Z)
    : outcome string * list channel_open_call :=
  if (local_funding_amount <? 1)%Z then
    (Raises (ValueError "funding amount needs to be positive"), [])
  else if (target_confs <? 1)%Z then
    (Raises (ValueError "target confs needs to be positive"), [])
  else if (String.length node_URI =? 0)%nat then
    (Raises (ValueError "node_URI cant be empty"), [])
  else if negb (str_in "@" node_URI) then
    (Raises (ValueError "node_URI must contain @ with node physical address"), [])
  else
    (channel_open_impl local_funding_amount node_URI target_confs,
     [ {| call_local_funding_amount := local_funding_amount;
          call_node_URI := node_URI;
          call_target_confs := target_confs |} ]).

(** ** The models and the backend, as the module sees them *)

(** [app.models.lightning] is imported, not defined, by the module: its
    classes are taken as parameters.  Pydantic models compare
    structurally, so the payload [x.dict()] is identified with [x], and
    [!=] is decidable disequality. *)
Class Models : Type := {
  LnInfo : Type;
  LightningInfoLite : Type;
  WalletBalance : Type;
  FeeRevenue : Type;
  Invoice : Type;
  ForwardSuccessEvent : Type;
  from_lninfo : LnInfo -> LightningInfoLite;
  LnInfo_eq_dec :: EqDecision LnInfo;
  LightningInfoLite_eq_dec :: EqDecision LightningInfoLite;
  WalletBalance_eq_dec :: EqDecision WalletBalance
}.

(** The coroutines [register_lightning_listener] hands to
    [loop.create_task]. *)
Inductive coroutine : Type :=
| _handle_info_listener
| _handle_invoice_listener
| _handle_forward_event_listener.

(** Who calls [_schedule_wallet_balance_update] (lines 117, 130, 229, 250). *)
Inductive caller : Type :=
| by_send_coins
| by_send_payment
| by_invoice_listener
| by_fwd_update.

(** The backend functions the coordinator awaits. *)
Inductive backend_fn : Type :=
| get_ln_info_impl
| get_fee_revenue_impl
| get_wallet_balance_impl.

#[global] Instance coroutine_eq_dec : EqDecision coroutine.
Proof. solve_decision. Defined.

#[global] Instance caller_eq_dec : EqDecision caller.
Proof. solve_decision. Defined.

(** Seconds of a binary64 delay, exactly; [None] for infinities and NaN,
    whose timer never comes due. *)
Definition seconds (d : spec_float) : option Q :=
  match d with
  | S754_zero _ => Some 0%Q
  | S754_finite s m e =>
      Some (inject_Z (if s then Z.neg m else Z.pos m) * Qpower 2 e)%Q
  | S754_infinity _ => None
  | S754_nan => None
  end.

(** The literal [1.1] of line 272. *)
Definition float_1_1 : spec_float := S754_finite false 4953959590107546 (-52).

(** The deadline of [asyncio.sleep(d)] started at clock reading [t]. *)
Definition deadline (t : Q) (d : spec_float) : option Q :=
  match seconds d with
  | Some x => Some (t + x)%Q
  | None => None
  end.

(** Whether a timer with that deadline has come due at clock reading [t]. *)
Definition due (until : option Q) (t : Q) : bool :=
  match until with
  | Some d => Qle_bool d t
  | None => false
  end.

Section Coordinator.

Context `{M : Models}.

(** *** The start-up guard (lines 180-204) *)

(** [probe] is what awaiting [ln.get_ln_info_impl()] on line 197 gives;
    the second component lists the coroutines passed to
    [loop.create_task], in order. *)
Definition register_lightning_listener (cfg : Settings) (probe : outcome LnInfo)
    : outcome unit * list coroutine :=
  if bool_decide (ln_node cfg = "") || bool_decide (ln_node cfg = "none") then
    (Returns tt, [])
  else
    match ln cfg with
    | None => (Raises (NameError "ln"), [])
    | Some _ =>
      match probe with
      | Returns _ =>
          (Returns tt,
           [_handle_info_listener; _handle_invoice_listener;
            _handle_forward_event_listener])
      | Raises (NotImplementedError args) =>
          match args with
          | a :: _ => (Raises (HTTPException HTTP_501_NOT_IMPLEMENTED a), [])
          | [] => (Raises (IndexError "tuple index out of range"), [])
          end
      | Raises e => (Raises e, [])
      end
    end.

(** *** What the coordinator does to the outside *)

(** One [broadcast_sse_msg(SSE.X, payload)]. *)
Inductive sse_msg : Type :=
| LN_INFO (info : LnInfo)
| LN_INFO_LITE (info_lite : LightningInfoLite)
| LN_INVOICE_STATUS (i : Invoice)
| LN_FORWARD_SUCCESSES (l : list ForwardSuccessEvent)
| WALLET_BALANCE (wb : WalletBalance)
| LN_FEE_REVENUE (rev : FeeRevenue).

(** The record of what the coordinator has done, oldest first. *)
Inductive effect : Type :=
| Broadcast (m : sse_msg)
| MarkDirty (c : caller)
| Called (f : backend_fn).

(** *** Coroutines in flight *)

(** The delayed tasks of lines 237-254 and 269-278, by the [await] they
    are suspended at. *)
Inductive task : Type :=
| fwd_update_created
| fwd_update_sleeping (until : option Q)
| fwd_update_fetching
| perform_update_created
| perform_update_sleeping (until : option Q)
| perform_update_fetching
| task_finished
| task_raised (e : exn).

(** [_handle_info_listener] (lines 207-223). *)
Inductive info_pc : Type :=
| info_created
| info_fetching
| info_sleeping (until : option Q)
| info_raised (e : exn).

Record info_listener : Type := {
  last_info : option LnInfo;
  last_info_lite : option LightningInfoLite;
  info_at : info_pc
}.

(** A listener inside its [async for]. *)
Inductive stream_listener : Type :=
| listening
| stream_exhausted
| stream_raised (e : exn).

(** The module globals, the event loop's clock and tasks, and the record
    of effects. *)
Record State : Type := {
  now : Q;
  _fwd_update_scheduled : bool;
  _fwd_successes : list ForwardSuccessEvent;
  _wallet_balance_update_scheduled : bool;
  _CACHE_wallet_balance : option WalletBalance;
  info_task : option info_listener;
  invoice_task : option stream_listener;
  forward_task : option stream_listener;
  tasks : list task;
  log : list effect
}.

Definition set_now (t : Q) (s : State) : State :=
  {| now := t;
     _fwd_update_scheduled := _fwd_update_scheduled s;
     _fwd_successes := _fwd_successes s;
     _wallet_balance_update_scheduled := _wallet_balance_update_scheduled s;
     _CACHE_wallet_balance := _CACHE_wallet_balance s;
     info_task := info_task s; invoice_task := invoice_task s;
     forward_task := forward_task s; tasks := tasks s; log := log s |}.

Definition set_fwd_update_scheduled (b : bool) (s : State) : State :=
  {| now := now s;
     _fwd_update_scheduled := b;
     _fwd_successes := _fwd_successes s;
     _wallet_balance_update_scheduled := _wallet_balance_update_scheduled s;
     _CACHE_wallet_balance := _CACHE_wallet_balance s;
     info_task := info_task s; invoice_task := invoice_task s;
     forward_task := forward_task s; tasks := tasks s; log := log s |}.

Definition set_fwd_successes (l : list ForwardSuccessEvent) (s : State) : State :=
  {| now := now s;
     _fwd_update_scheduled := _fwd_update_scheduled s;
     _fwd_successes := l;
     _wallet_balance_update_scheduled := _wallet_balance_update_scheduled s;
     _CACHE_wallet_balance := _CACHE_wallet_balance s;
     info_task := info_task s; invoice_task := invoice_task s;
     forward_task := forward_task s; tasks := tasks s; log := log s |}.

Definition set_wallet_balance_update_scheduled (b : bool) (s : State) : State :=
  {| now := now s;
     _fwd_update_scheduled := _fwd_update_scheduled s;
     _fwd_successes := _fwd_successes s;
     _wallet_balance_update_scheduled := b;
     _CACHE_wallet_balance := _CACHE_wallet_balance s;
     info_task := info_task s; invoice_task := invoice_task s;
     forward_task := forward_task s; tasks := tasks s; log := log s |}.

Definition set_CACHE_wallet_balance (wb : option WalletBalance) (s : State) : State :=
  {| now := now s;
     _fwd_update_scheduled := _fwd_update_scheduled s;
     _fwd_successes := _fwd_successes s;
     _wallet_balance_update_scheduled := _wallet_balance_update_scheduled s;
     _CACHE_wallet_balance := wb;
     info_task := info_task s; invoice_task := invoice_task s;
     forward_task := forward_task s; tasks := tasks s; log := log s |}.

Definition set_info_task (i : option info_listener) (s : State) : State :=
  {| now := now s;
     _fwd_update_scheduled := _fwd_update_scheduled s;
     _fwd_successes := _fwd_successes s;
     _wallet_balance_update_scheduled := _wallet_balance_update_scheduled s;
     _CACHE_wallet_balance := _CACHE_wallet_balance s;
     info_task := i; invoice_task := invoice_task s;
     forward_task := forward_task s; tasks := tasks s; log := log s |}.

Definition set_invoice_task (l : option stream_listener) (s : State) : State :=
  {| now := now s;
     _fwd_update_scheduled := _fwd_update_scheduled s;
     _fwd_successes := _fwd_successes s;
     _wallet_balance_update_scheduled := _wallet_balance_update_scheduled s;
     _CACHE_wallet_balance := _CACHE_wallet_balance s;
     info_task := info_task s; invoice_task := l;
     forward_task := forward_task s; tasks := tasks s; log := log s |}.

Definition set_forward_task (l : option stream_listener) (s : State) : State :=
  {| now := now s;
     _fwd_update_scheduled := _fwd_update_scheduled s;
     _fwd_successes := _fwd_successes s;
     _wallet_balance_update_scheduled := _wallet_balance_update_scheduled s;
     _CACHE_wallet_balance := _CACHE_wallet_balance s;
     info_task := info_task s; invoice_task := invoice_task s;
     forward_task := l; tasks := tasks s; log := log s |}.

Definition set_tasks (ts : list task) (s : State) : State :=
  {| now := now s;
     _fwd_update_scheduled := _fwd_update_scheduled s;
     _fwd_successes := _fwd_successes s;
     _wallet_balance_update_scheduled := _wallet_balance_update_scheduled s;
     _CACHE_wallet_balance := _CACHE_wallet_balance s;
     info_task := info_task s; invoice_task := invoice_task s;
     forward_task := forward_task s; tasks := ts; log := log s |}.

Definition record (e : effect) (s : State) : State :=
  {| now := now s;
     _fwd_update_scheduled := _fwd_update_scheduled s;
     _fwd_successes := _fwd_successes s;
     _wallet_balance_update_scheduled := _wallet_balance_update_scheduled s;
     _CACHE_wallet_balance := _CACHE_wallet_balance s;
     info_task := info_task s; invoice_task := invoice_task s;
     forward_task := forward_task s; tasks := tasks s; log := log s ++ [e] |}.

(** *** Primitives *)

(** Modelled from the spec: [app.utils.broadcast_sse_msg] is imported,
    not defined, by the module.  The Publisher Port is "fire-and-forget,
    assumed non-blocking and non-failing from the coordinator's point of
    view": a broadcast is recorded and the coroutine goes on without
    yielding to the event loop. *)
Definition broadcast_sse_msg (m : sse_msg) (s : State) : State :=
  record (Broadcast m) s.

(** [loop.create_task(coro)]: the coroutine is queued; none of its body
    runs before the event loop reaches it. *)
Definition create_task (c : task) (s : State) : State :=
  set_tasks (tasks s ++ [c]) s.

(** The synchronous body of [_schedule_wallet_balance_update]
    (lines 280-283), called by [c]. *)
Definition _schedule_wallet_balance_update (c : caller) (s : State) : State :=
  let s := record (MarkDirty c) s in
  if negb (_wallet_balance_update_scheduled s)
  then create_task perform_update_created s
  else s.

Definition set_task (k : nat) (t : task) (s : State) : State :=
  set_tasks (<[k := t]> (tasks s)) s.

Section Loop.

Variable cfg : Settings.

(** *** The info listener (lines 207-223) *)

Definition info_listener_at (pc : info_pc) (li : option LnInfo)
    (ll : option LightningInfoLite) : option info_listener :=
  Some {| last_info := li; last_info_lite := ll; info_at := pc |}.

(** Lines 213-215. *)
Definition full_gate (info : LnInfo) (il : info_listener) (s : State)
    : option LnInfo * State :=
  if bool_decide (last_info il <> Some info)
  then (Some info, broadcast_sse_msg (LN_INFO info) s)
  else (last_info il, s).

(** Lines 217-221. *)
Definition lite_gate (info : LnInfo) (il : info_listener) (s : State)
    : option LightningInfoLite * State :=
  let info_lite := from_lninfo info in
  if bool_decide (last_info_lite il <> Some info_lite)
  then (Some info_lite, broadcast_sse_msg (LN_INFO_LITE info_lite) s)
  else (last_info_lite il, s).

(** One pass of the [while True] body from the point where the [await]
    of line 211 is resumed with [r], up to the [sleep] of line 223. *)
Definition info_cycle (r : outcome LnInfo) (il : info_listener) (s : State) : State :=
  match r with
  | Raises e =>
      set_info_task (info_listener_at (info_raised e) (last_info il) (last_info_lite il)) s
  | Returns info =>
      let '(li, s1) := full_gate info il s in
      let '(ll, s2) := lite_gate info il s1 in
      set_info_task
        (info_listener_at (info_sleeping (deadline (now s) (GATHER_INFO_INTERVALL cfg))) li ll)
        s2
  end.

(** The listener is resumed and runs up to the [await] of line 211. *)
Definition info_resume (il : info_listener) (s : State) : option State :=
  match info_at il with
  | info_created =>
      Some (set_info_task (info_listener_at info_fetching None None)
              (record (Called get_ln_info_impl) s))
  | info_sleeping until =>
      if due until (now s)
      then Some (set_info_task
                   (info_listener_at info_fetching (last_info il) (last_info_lite il))
                   (record (Called get_ln_info_impl) s))
      else None
  | info_fetching => None
  | info_raised _ => None
  end.

(** *** The invoice listener (lines 226-229) *)

Definition invoice_body (i : Invoice) (s : State) : State :=
  _schedule_wallet_balance_update by_invoice_listener
    (broadcast_sse_msg (LN_INVOICE_STATUS i) s).

(** *** The forward listener (lines 236-262) *)

(** Lines 257-262: the body of the [async for]. *)
Definition forward_body (i : ForwardSuccessEvent) (s : State) : State :=
  let s1 := if ENABLE_FWD_NOTIFICATIONS cfg
            then set_fwd_successes (_fwd_successes s ++ [i]) s
            else s in
  if negb (_fwd_update_scheduled s1)
  then create_task fwd_update_created s1
  else s1.

(** Lines 241-243: [_schedule_fwd_update] from its start to the sleep. *)
Definition fwd_update_start (k : nat) (s : State) : State :=
  set_task k (fwd_update_sleeping (deadline (now s) (FWD_GATHER_INTERVAL cfg)))
    (set_fwd_update_scheduled true s).

(** Lines 245-248. *)
Definition flush (s : State) : State :=
  if (0 <? length (_fwd_successes s))%nat
  then let l := _fwd_successes s in
       broadcast_sse_msg (LN_FORWARD_SUCCESSES l) (set_fwd_successes [] s)
  else s.

(** Lines 245-251: from the end of the sleep to the [await] of
    [get_fee_revenue]. *)
Definition fwd_update_wake (k : nat) (s : State) : State :=
  set_task k fwd_update_fetching
    (record (Called get_fee_revenue_impl)
       (_schedule_wallet_balance_update by_fwd_update (flush s))).

(** Lines 251-254: [get_fee_revenue] has given [r]. *)
Definition fwd_update_finish (k : nat) (r : outcome FeeRevenue) (s : State) : State :=
  match r with
  | Raises e => set_task k (task_raised e) s
  | Returns rev =>
      set_task k task_finished
        (set_fwd_update_scheduled false (broadcast_sse_msg (LN_FEE_REVENUE rev) s))
  end.

(** *** The balance refresh (lines 269-278) *)

(** Lines 271-272. *)
Definition perform_update_start (k : nat) (s : State) : State :=
  set_task k (perform_update_sleeping (deadline (now s) float_1_1))
    (set_wallet_balance_update_scheduled true s).

(** Line 273, up to the [await]. *)
Definition perform_update_wake (k : nat) (s : State) : State :=
  set_task k perform_update_fetching (record (Called get_wallet_balance_impl) s).

(** Lines 273-278: [get_wallet_balance_impl] has given [r]. *)
Definition perform_update_finish (k : nat) (r : outcome WalletBalance) (s : State) : State :=
  match r with
  | Raises e => set_task k (task_raised e) s
  | Returns wb =>
      let s1 := if bool_decide (_CACHE_wallet_balance s <> Some wb)
                then set_CACHE_wallet_balance (Some wb)
                       (broadcast_sse_msg (WALLET_BALANCE wb) s)
                else s in
      set_task k task_finished (set_wallet_balance_update_scheduled false s1)
  end.

(** *** The event loop *)

(** What a backend call whose result a delayed task awaits gives back. *)
Inductive reply : Type :=
| fee_revenue (r : outcome FeeRevenue)
| wallet_balance (r : outcome WalletBalance).

(** One turn of the event loop: the clock moves on, or one coroutine
    runs from the [await] it was suspended at to its next one. *)
Inductive label : Type :=
| Tick (t : Q)
| InfoResumes
| InfoReply (r : outcome LnInfo)
| InvoiceNext (i : Invoice)
| InvoiceStop (e : option exn)
| ForwardNext (i : ForwardSuccessEvent)
| ForwardStop (e : option exn)
| SendCoinsReturns
| SendPaymentReturns
| Start (k : nat)
| Wake (k : nat)
| Reply (k : nat) (r : reply).

Definition stopped (e : option exn) : option stream_listener :=
  match e with
  | None => Some stream_exhausted
  | Some x => Some (stream_raised x)
  end.

(** [None] when the turn cannot happen in [s]. *)
Definition step (l : label) (s : State) : option State :=
  match l with
  | Tick t => if Qle_bool (now s) t then Some (set_now t s) else None
  | InfoResumes =>
      match info_task s with
      | Some il => info_resume il s
      | None => None
      end
  | InfoReply r =>
      match info_task s with
      | Some il =>
          match info_at il with
          | info_fetching => Some (info_cycle r il s)
          | _ => None
          end
      | None => None
      end
  | InvoiceNext i =>
      match invoice_task s with
      | Some listening => Some (invoice_body i s)
      | _ => None
      end
  | InvoiceStop e =>
      match invoice_task s with
      | Some listening => Some (set_invoice_task (stopped e) s)
      | _ => None
      end
  | ForwardNext i =>
      match forward_task s with
      | Some listening => Some (forward_body i s)
      | _ => None
      end
  | ForwardStop e =>
      match forward_task s with
      | Some listening => Some (set_forward_task (stopped e) s)
      | _ => None
      end
  | SendCoinsReturns => Some (_schedule_wallet_balance_update by_send_coins s)
  | SendPaymentReturns => Some (_schedule_wallet_balance_update by_send_payment s)
  | Start k =>
      match tasks s !! k with
      | Some fwd_update_created => Some (fwd_update_start k s)
      | Some perform_update_created => Some (perform_update_start k s)
      | _ => None
      end
  | Wake k =>
      match tasks s !! k with
      | Some (fwd_update_sleeping until) =>
          if due until (now s) then Some (fwd_update_wake k s) else None
      | Some (perform_update_sleeping until) =>
          if due until (now s) then Some (perform_update_wake k s) else None
      | _ => None
      end
  | Reply k r =>
      match tasks s !! k, r with
      | Some fwd_update_fetching, fee_revenue x => Some (fwd_update_finish k x s)
      | Some perform_update_fetching, wallet_balance x => Some (perform_update_finish k x s)
      | _, _ => None
      end
  end.

(** A schedule: the turns of the event loop, in order. *)
Fixpoint run (ls : list label) (s : State) : option State :=
  match ls with
  | [] => Some s
  | l :: ls' =>
      match step l s with
      | Some s' => run ls' s'
      | None => None
      end
  end.

End Loop.

(** The module right after import, with the coroutines in [created]
    handed to the event loop. *)
Definition boot (created : list coroutine) : State :=
  {| now := 0%Q;
     _fwd_update_scheduled := false;
     _fwd_successes := [];
     _wallet_balance_update_scheduled := false;
     _CACHE_wallet_balance := None;
     info_task :=
       if bool_decide (_handle_info_listener ∈ created)
       then info_listener_at info_created None None else None;
     invoice_task :=
       if bool_decide (_handle_invoice_listener ∈ created)
       then Some listening else None;
     forward_task :=
       if bool_decide (_handle_forward_event_listener ∈ created)
       then Some listening else None;
     tasks := [];
     log := [] |}.

(** The state a successful [register_lightning_listener] leaves. *)
Definition registered : State :=
  boot [_handle_info_listener; _handle_invoice_listener;
        _handle_forward_event_listener].

(** The state a schedule leads to from [registered]; [registered]
    itself when the schedule cannot run. *)
Definition state_after (cfg : Settings) (ls : list label) : State :=
  match run cfg ls registered with
  | Some s => s
  | None => registered
  end.

(** *** Reading the record *)

Definition broadcasts (l : list effect) : list sse_msg :=
  omap (fun e => match e with Broadcast m => Some m | _ => None end) l.

Definition ln_info_channel (l : list effect) : list LnInfo :=
  omap (fun e => match e with Broadcast (LN_INFO x) => Some x | _ => None end) l.

Definition ln_info_lite_channel (l : list effect) : list LightningInfoLite :=
  omap (fun e => match e with Broadcast (LN_INFO_LITE x) => Some x | _ => None end) l.

Definition wallet_balance_channel (l : list effect) : list WalletBalance :=
  omap (fun e => match e with Broadcast (WALLET_BALANCE x) => Some x | _ => None end) l.

Definition invoice_channel (l : list effect) : list Invoice :=
  omap (fun e => match e with Broadcast (LN_INVOICE_STATUS x) => Some x | _ => None end) l.

Definition forward_channel (l : list effect) : list (list ForwardSuccessEvent) :=
  omap (fun e => match e with Broadcast (LN_FORWARD_SUCCESSES x) => Some x | _ => None end) l.

Definition fee_revenue_channel (l : list effect) : list FeeRevenue :=
  omap (fun e => match e with Broadcast (LN_FEE_REVENUE x) => Some x | _ => None end) l.

(** What the invoice listener did: its broadcasts and its signals. *)
Definition invoice_listener_effects (l : list effect) : list effect :=
  omap (fun e => match e with
                 | Broadcast (LN_INVOICE_STATUS _) => Some e
                 | MarkDirty by_invoice_listener => Some e
                 | _ => None
                 end) l.

(** The invoices a schedule delivers, in order. *)
Definition invoices_delivered (ls : list label) : list Invoice :=
  omap (fun l => match l with InvoiceNext i => Some i | _ => None end) ls.

(** How often the info listener has called [ln.get_ln_info_impl]. *)
Definition info_polls (l : list effect) : nat :=
  length (omap (fun e => match e with
                         | Called get_ln_info_impl => Some tt
                         | _ => None
                         end) l).

(** The results a schedule feeds to the info listener, in order. *)
Definition info_replies (ls : list label) : list (outcome LnInfo) :=
  omap (fun l => match l with InfoReply r => Some r | _ => None end) ls.




(** No two neighbours of the list are equal. *)
Definition no_repeat {A : Type} (l : list A) : Prop :=
  forall (i : nat) (x y : A), l !! i = Some x -> l !! S i = Some y -> x <> y.

(** The caches are the last value broadcast on their channel: the
    module-level [_CACHE] for the balance, the locals [last_info] and
    [last_info_lite] of the info listener for the node info. *)
Definition caches_track_channels (s : State) : Prop :=
  _CACHE_wallet_balance s = last (wallet_balance_channel (log s))
  /\ forall il, info_task s = Some il ->
       last_info il = last (ln_info_channel (log s))
       /\ last_info_lite il = last (ln_info_lite_channel (log s)).

(** An info listener that has not run yet has nothing in its locals. *)
Definition info_listener_fresh (s : State) : Prop :=
  forall il, info_task s = Some il -> info_at il = info_created ->
    last_info il = None /\ last_info_lite il = None.

Definition is_fwd_update (t : task) : bool :=
  match t with
  | fwd_update_created | fwd_update_sleeping _ | fwd_update_fetching => true
  | _ => false
  end.

Definition is_perform_update (t : task) : bool :=
  match t with
  | perform_update_created | perform_update_sleeping _ | perform_update_fetching => true
  | _ => false
  end.

(** How many delayed tasks of a kind are created and not yet over. *)
Definition pending (kind : task -> bool) (s : State) : nat :=
  length (List.filter kind (tasks s)).

End Coordinator.


(** ** Further readings of schedules and records *)

Section Readings.

Context `{M : Models}.

(** The forward events a schedule delivers, in order. *)
Definition forwards_delivered (ls : list label) : list ForwardSuccessEvent :=
  omap (fun l => match l with ForwardNext i => Some i | _ => None end) ls.

(** How often [ln.get_wallet_balance_impl] has been called (line 273). *)
Definition balance_fetches (l : list effect) : nat :=
  length (omap (fun e => match e with
                         | Called get_wallet_balance_impl => Some tt
                         | _ => None
                         end) l).

(** How often [get_fee_revenue] has been called (line 251). *)
Definition revenue_fetches (l : list effect) : nat :=
  length (omap (fun e => match e with
                         | Called get_fee_revenue_impl => Some tt
                         | _ => None
                         end) l).

(** How often [_schedule_wallet_balance_update] has been called. *)
Definition dirty_marks (l : list effect) : nat :=
  length (omap (fun e => match e with MarkDirty _ => Some tt | _ => None end) l).

(** A flush task that has not reached its flush yet. *)
Definition is_fwd_waiting (t : task) : bool :=
  match t with
  | fwd_update_created | fwd_update_sleeping _ => true
  | _ => false
  end.

(** A balance refresh that has not reached its fetch yet. *)
Definition is_perform_waiting (t : task) : bool :=
  match t with
  | perform_update_created | perform_update_sleeping _ => true
  | _ => false
  end.

(** The turns in which some coroutine marks the wallet balance dirty
    and does nothing else to the flags and tasks: lines 117, 130 and
    228-229. *)
Definition is_signal (l : label) : bool :=
  match l with
  | SendCoinsReturns | SendPaymentReturns | InvoiceNext _ => true
  | _ => false
  end.

(** One balance refresh: a first signal creates task [k], which starts
    in the same pass of the loop; further signals [signals] follow; at
    [tw] the sleep of the task is over, it fetches the balance and is
    given [wb]. *)
Definition debounce_schedule (k : nat) (first : label) (signals : list label)
    (tw : Q) (wb : WalletBalance) : list label :=
  ([first; Start k] ++ signals
   ++ [Tick tw; Wake k; Reply k (wallet_balance (Returns wb))])%list.

(** A sequence with every value that repeats its predecessor left out. *)
Definition squash_step {A : Type} `{EqDecision A} (acc : list A) (x : A) : list A :=
  if decide (last acc = Some x) then acc else (acc ++ [x])%list.

Definition squash {A : Type} `{EqDecision A} (l : list A) : list A :=
  fold_left squash_step l [].

(** The snapshots the polls of a schedule return, in order. *)
Definition infos_returned (ls : list label) : list LnInfo :=
  omap (fun l => match l with InfoReply (Returns x) => Some x | _ => None end) ls.

(** The balances the fetches of a schedule return, in order. *)
Definition balances_returned (ls : list label) : list WalletBalance :=
  omap (fun l => match l with
                 | Reply _ (wallet_balance (Returns x)) => Some x
                 | _ => None
                 end) ls.

(** The fee revenues the fetches of a schedule return, in order. *)
Definition revenues_returned (ls : list label) : list FeeRevenue :=
  omap (fun l => match l with
                 | Reply _ (fee_revenue (Returns x)) => Some x
                 | _ => None
                 end) ls.

End Readings.

(** ** Sample data for concrete runs *)

(** A node snapshot as (peers, block height), its lite projection the
    number of peers; balances and revenues in satoshi; invoices and
    forward events by name. *)
Definition sample_models : Models :=
  {| LnInfo := nat * nat;
     LightningInfoLite := nat;
     WalletBalance := Z;
     FeeRevenue := Z;
     Invoice := string;
     ForwardSuccessEvent := string;
     from_lninfo := fst |}.

Definition sample_environ : Environ :=
  {| env_platform := Some "native_python";
     env_ln_node := Some "lnd_grpc";
     env_gather_ln_info_interval := None;
     env_sse_notify_forward_successes := Some true;
     env_forwards_gather_interval := None |}.

(** [sample_environ] with the forward window set to [w]. *)
Definition environ_with_window (w : spec_float) : Environ :=
  {| env_platform := Some "native_python";
     env_ln_node := Some "lnd_grpc";
     env_gather_ln_info_interval := None;
     env_sse_notify_forward_successes := Some true;
     env_forwards_gather_interval := Some w |}.

(** The binary64 value 0.25. *)
Definition float_0_25 : spec_float := S754_finite false 4503599627370496 (-54).

(** The settings [sample_environ] loads to: forward notifications on,
    both intervals at their default of two seconds. *)
Definition sample_settings : Settings :=
  {| PLATFORM := "native_python"; ln_node := "lnd_grpc"; ln := Some lnd_grpc;
     GATHER_INFO_INTERVALL := float_2_0;
     ENABLE_FWD_NOTIFICATIONS := true;
     FWD_GATHER_INTERVAL := float_2_0 |}.

(** [sample_settings] with forward notifications off. *)
Definition quiet_settings : Settings :=
  {| PLATFORM := "native_python"; ln_node := "lnd_grpc"; ln := Some lnd_grpc;
     GATHER_INFO_INTERVALL := float_2_0;
     ENABLE_FWD_NOTIFICATIONS := false;
     FWD_GATHER_INTERVAL := float_2_0 |}.



(** Two forward events yielded by [ln.listen_forward_events()] one right
    after the other, so that the listener runs lines 257-262 twice before
    the event loop starts the task created for the first; then both
    tasks start. *)
Definition burst_opening : list (@label sample_models) :=
  [ ForwardNext (M := sample_models) "fwd-1";
    ForwardNext (M := sample_models) "fwd-2";
    Start 0%nat; Start 1%nat ].

(** The burst, the two seconds of the window, both flushes and both
    revenue fetches. *)
Definition burst_schedule : list (@label sample_models) :=
  burst_opening ++
  [ Tick 2%Q;
    Wake 0%nat; Wake 1%nat;
    Reply 0%nat (fee_revenue (M := sample_models) (Returns 7%Z));
    Reply 1%nat (fee_revenue (M := sample_models) (Returns 7%Z)) ].

(** Two callers mark the balance dirty in the same pass of the event
    loop, before the task created for the first has run; then both tasks
    start. *)
Definition double_dirty_schedule : list (@label sample_models) :=
  [ SendCoinsReturns; SendPaymentReturns; Start 0%nat; Start 1%nat ].


(** Polls, an invoice, a payment and the balance refreshes they cause. *)
Definition sample_day : list (@label sample_models) :=
  [ InfoResumes; InfoReply (M := sample_models) (Returns (3, 812)%nat);
    InvoiceNext (M := sample_models) "inv-1"; Start 0%nat;
    Tick 2%Q;
    InfoResumes; InfoReply (M := sample_models) (Returns (3, 812)%nat);
    Wake 0%nat; Reply 0%nat (wallet_balance (M := sample_models) (Returns 5000%Z));
    SendCoinsReturns; Start 1%nat;
    Tick 4%Q;
    Wake 1%nat; Reply 1%nat (wallet_balance (M := sample_models) (Returns 5000%Z));
    InfoResumes; InfoReply (M := sample_models) (Returns (3, 813)%nat) ].

(** A poll that returns, the sleep, a poll that raises. *)
Definition failing_poll_schedule : list (@label sample_models) :=
  [ InfoResumes; InfoReply (M := sample_models) (Returns (3, 812)%nat);
    Tick 2%Q;
    InfoResumes;
    InfoReply (M := sample_models) (Raises (HTTPException 503 "backend unavailable")) ].

(** An info listener about to be given a poll result, whose full cache
    holds that very snapshot while its lite cache holds something else. *)
Definition lite_only_state : @State sample_models :=
  set_info_task (M := sample_models)
    (info_listener_at (M := sample_models) info_fetching (Some (3, 812)%nat) (Some 4%nat))
    registered.

(** Two snapshots that differ in the block height only. *)
Definition snapshot_a : @LnInfo sample_models := (3, 812)%nat.
Definition snapshot_b : @LnInfo sample_models := (3, 813)%nat.

(** The listener's locals while its first poll is under way. *)
Definition info_listener_at_fetching `{M : Models} : info_listener :=
  {| last_info := None; last_info_lite := None; info_at := info_fetching |}.

(** The info listener [failing_poll_schedule] leaves behind. *)
Definition raised_listener : @info_listener sample_models :=
  @Build_info_listener sample_models (Some (3, 812)%nat) (Some 3%nat)
    (info_raised (HTTPException 503 "backend unavailable")).

(** The info listener of [lite_only_state]. *)
Definition lite_only_listener : @info_listener sample_models :=
  @Build_info_listener sample_models (Some (3, 812)%nat) (Some 4%nat) info_fetching.

(** The settings of a node that is switched off. *)
Definition switched_off_settings : Settings :=
  {| PLATFORM := "native_python"; ln_node := "none"; ln := None;
     GATHER_INFO_INTERVALL := float_2_0;
     ENABLE_FWD_NOTIFICATIONS := false;
     FWD_GATHER_INTERVAL := float_2_0 |}.

(** An environment that names a node implementation the module does
    not know. *)
Definition unknown_node_environ : Environ :=
  {| env_platform := Some "native_python";
     env_ln_node := Some "eclair";
     env_gather_ln_info_interval := None;
     env_sse_notify_forward_successes := None;
     env_forwards_gather_interval := None |}.

(** The settings [unknown_node_environ] loads to. *)
Definition unknown_node_settings : Settings :=
  {| PLATFORM := "native_python"; ln_node := "eclair"; ln := None;
     GATHER_INFO_INTERVALL := float_2_0;
     ENABLE_FWD_NOTIFICATIONS := false;
     FWD_GATHER_INTERVAL := float_2_0 |}.



(** A payment, the start of the refresh it causes, and the refresh
    fetching the balance. *)
Definition refresh_fetching_schedule : list (@label sample_models) :=
  [ SendCoinsReturns; Start 0%nat; Tick 2%Q; Wake 0%nat ].

(** A forward event, the start of its flush, and the flush awaiting the
    fee revenue. *)
Definition flush_fetching_schedule : list (@label sample_models) :=
  [ ForwardNext (M := sample_models) "fwd-1"; Start 0%nat; Tick 2%Q; Wake 0%nat ].

(** What may follow a refresh that has failed. *)
Definition after_failed_refresh : list (@label sample_models) :=
  [ InvoiceNext (M := sample_models) "inv-1"; SendPaymentReturns; Tick 4%Q ].

(** What may follow a flush that has failed. *)
Definition after_failed_flush : list (@label sample_models) :=
  [ ForwardNext (M := sample_models) "fwd-2"; Tick 4%Q;
    ForwardNext (M := sample_models) "fwd-3" ].

(** Time passing and a payment, with no forward event. *)
Definition no_forward_schedule : list (@label sample_models) :=
  [ Tick 4%Q; SendCoinsReturns ].

(** Further signals while a refresh sleeps. *)
Definition sample_signals : list (@label sample_models) :=
  [ InvoiceNext (M := sample_models) "inv-1"; SendPaymentReturns;
    InvoiceNext (M := sample_models) "inv-2" ].

(** Both streams end, the forward stream with an exception. *)
Definition streams_end_schedule : list (@label sample_models) :=
  [ InvoiceStop None; ForwardStop (Some (BackendError "stream closed")) ].

(** [sample_day], the sleep of the info listener and its next poll
    under way. *)
Definition sample_day_polling : list (@label sample_models) :=
  sample_day ++ [ Tick 6%Q; InfoResumes ].

(** A c-lightning node on a Raspiblitz. *)
Definition cln_blitz_environ : Environ :=
  {| env_platform := Some "raspiblitz";
     env_ln_node := Some "cln_grpc";
     env_gather_ln_info_interval := None;
     env_sse_notify_forward_successes := None;
     env_forwards_gather_interval := None |}.

(** The settings [cln_blitz_environ] loads to when [APIPlatform.RASPIBLITZ]
    is ["raspiblitz"]. *)
Definition cln_blitz_settings : Settings :=
  {| PLATFORM := "raspiblitz"; ln_node := "cln_grpc"; ln := Some cln_grpc_blitz;
     GATHER_INFO_INTERVALL := float_2_0;
     ENABLE_FWD_NOTIFICATIONS := false;
     FWD_GATHER_INTERVAL := float_2_0 |}.

(** A probe that raises [NotImplementedError]. *)
Definition not_implemented_probe : outcome (@LnInfo sample_models) :=
  Raises (NotImplementedError ["get_ln_info not implemented"; "cln"]).

(** A fee revenue and a wallet balance, in satoshi. *)
Definition sample_revenue : @FeeRevenue sample_models := 7%Z.
Definition sample_balance : @WalletBalance sample_models := 5000%Z.

(** * Properties *)

(** ** Configuration *)

Lemma float_le_0_3_not_lt (v : spec_float) :
  float_le float_0_3 v = true -> float_lt v float_0_3 = false.
Proof.
  unfold float_le, float_lt, SFleb, SFltb, float_0_3, SFcompare.
  destruct v as [s | s | | s m e].
  - destruct s; discriminate.
  - destruct s; [discriminate | reflexivity].
  - discriminate.
  - destruct s; [discriminate|].
    rewrite (Z.compare_antisym e (-54)).
    destruct (e ?= -54)%Z eqn:He; cbn [CompOpp]; try discriminate; try reflexivity.
    change (PosDef.Pos.compare_cont Eq 5404319552844595 m)
      with (Pos.compare_cont (CompOpp Eq) 5404319552844595 m).
    rewrite <- (Pos.compare_cont_antisym m 5404319552844595 Eq).
    destruct (Pos.compare_cont Eq m 5404319552844595); cbn [CompOpp];
      try discriminate; reflexivity.
Qed.

(** C9.  With [platform] and [ln_node] set, a [forwards_gather_interval]
    below the binary64 value 0.3 makes the import of the module raise
    the [RuntimeError] of line 55, so that no [Settings] exist and no
    function of the module can be called; a value at or above 0.3 is
    accepted as it is, and an unset option gives the default 2.0. *)
Theorem forwards_gather_interval_floor (raspiblitz platform node : string) (env : Environ) :
  env_platform env = Some platform ->
  env_ln_node env = Some node ->
  (forall v, env_forwards_gather_interval env = Some v ->
     float_lt v float_0_3 = true ->
     load_module raspiblitz env =
       Raises (RuntimeError "forwards_gather_interval cannot be less than 0.3 seconds"))
  /\ (forall v, env_forwards_gather_interval env = Some v ->
        float_le float_0_3 v = true ->
        exists cfg, load_module raspiblitz env = Returns cfg
                    /\ FWD_GATHER_INTERVAL cfg = v)
  /\ (env_forwards_gather_interval env = None ->
        exists cfg, load_module raspiblitz env = Returns cfg
                    /\ FWD_GATHER_INTERVAL cfg = float_2_0).
Proof.
  intros Hp Hn. unfold load_module. rewrite Hp, Hn.
  cbn [config_required].
  split; [|split].
  - intros v Hv Hlt. rewrite Hv. cbn [default from_option id]. rewrite Hlt. reflexivity.
  - intros v Hv Hle. rewrite Hv. cbn [default from_option id].
    rewrite (float_le_0_3_not_lt v Hle). eexists; split; reflexivity.
  - intros Hv. rewrite Hv. cbn [default from_option id].
    replace (float_lt float_2_0 float_0_3) with false by (vm_compute; reflexivity).
    eexists; split; reflexivity.
Qed.

(** A window of 0.25 s is refused, one of exactly 0.3 s and the default
    are accepted. *)
Lemma forwards_gather_interval_floor_witness :
  load_module "raspiblitz" (environ_with_window float_0_25)
  = Raises (RuntimeError "forwards_gather_interval cannot be less than 0.3 seconds")
  /\ (exists cfg,
        load_module "raspiblitz" (environ_with_window float_0_3) = Returns cfg
        /\ FWD_GATHER_INTERVAL cfg = float_0_3)
  /\ (exists cfg, load_module "raspiblitz" sample_environ = Returns cfg
                  /\ FWD_GATHER_INTERVAL cfg = float_2_0).
Proof.
  split; [|split].
  - apply (proj1 (forwards_gather_interval_floor "raspiblitz" "native_python" "lnd_grpc"
                    (environ_with_window float_0_25) eq_refl eq_refl) float_0_25).
    + reflexivity.
    + vm_compute; reflexivity.
  - apply (proj1 (proj2 (forwards_gather_interval_floor "raspiblitz" "native_python"
                           "lnd_grpc" (environ_with_window float_0_3) eq_refl eq_refl))
             float_0_3).
    + reflexivity.
    + vm_compute; reflexivity.
  - apply (proj2 (proj2 (forwards_gather_interval_floor "raspiblitz" "native_python"
                           "lnd_grpc" sample_environ eq_refl eq_refl))).
    reflexivity.
Defined.

(** ** [channel_open] *)

Lemma str_in_at (s : string) :
  str_in "@" s = true <-> In "@"%char (String.list_ascii_of_string s).
Proof.
  induction s as [|c s IH].
  - simpl. split; [discriminate | tauto].
  - cbn [str_in String.prefix String.list_ascii_of_string In].
    destruct (Ascii.ascii_dec "@" c) as [<-|Hne].
    + replace (String.prefix "" s) with true by (destruct s; reflexivity).
      simpl. tauto.
    + cbn [orb]. rewrite IH. split; [tauto | intros [H|H]; [congruence | exact H]].
Qed.

Lemma length_zero_empty (s : string) :
  (String.length s =? 0)%nat = true <-> s = "".
Proof. destruct s; simpl; split; congruence. Qed.

(** C10.  When the funding amount or the confirmation target is below 1,
    or the URI is empty or has no ['@'], [channel_open] raises a
    [ValueError] and [ln.channel_open_impl] is not invoked; in every
    other case the backend is invoked once, with the arguments as given,
    and what it gives is what [channel_open] gives. *)
Theorem channel_open_validates
    (channel_open_impl : Z -> string -> Z -> outcome string)
    (local_funding_amount : Z) (node_URI : string) (target_confs : Z) :
  ((local_funding_amount < 1 \/ target_confs < 1 \/ node_URI = ""
    \/ ~ In "@"%char (String.list_ascii_of_string node_URI)) ->
   exists msg,
     channel_open channel_open_impl local_funding_amount node_URI target_confs
     = (Raises (ValueError msg), []))
  /\ (~ (local_funding_amount < 1 \/ target_confs < 1 \/ node_URI = ""
         \/ ~ In "@"%char (String.list_ascii_of_string node_URI)) ->
      channel_open channel_open_impl local_funding_amount node_URI target_confs
      = (channel_open_impl local_funding_amount node_URI target_confs,
         [ {| call_local_funding_amount := local_funding_amount;
              call_node_URI := node_URI;
              call_target_confs := target_confs |} ])).
Proof.
  unfold channel_open.
  destruct (Z.ltb_spec local_funding_amount 1) as [Ha|Ha].
  { split; [intros _; eexists; reflexivity | intros H; exfalso; apply H; tauto]. }
  destruct (Z.ltb_spec target_confs 1) as [Hc|Hc].
  { split; [intros _; eexists; reflexivity | intros H; exfalso; apply H; tauto]. }
  destruct (String.length node_URI =? 0)%nat eqn:Hl.
  { apply length_zero_empty in Hl.
    split; [intros _; eexists; reflexivity | intros H; exfalso; apply H; tauto]. }
  destruct (str_in "@" node_URI) eqn:Hin; simpl.
  - apply str_in_at in Hin. split; [|reflexivity].
    intros [H|[H|[H|H]]]; try lia.
    + apply length_zero_empty in H. congruence.
    + contradiction.
  - split; [intros _; eexists; reflexivity|].
    intros H; exfalso; apply H. right; right; right.
    rewrite <- str_in_at. congruence.
Qed.

(** A URI without ['@'] is refused before the backend is reached; a
    well-formed request goes through to it. *)
Lemma channel_open_validates_witness :
  (exists msg,
     channel_open (fun _ _ _ => Returns "txid") 20000 "02abcdef" 3
     = (Raises (ValueError msg), []))
  /\ channel_open (fun _ _ _ => Returns "txid") 20000 "02abcdef@10.0.0.1:9735" 3
     = (Returns "txid",
        [ {| call_local_funding_amount := 20000;
             call_node_URI := "02abcdef@10.0.0.1:9735";
             call_target_confs := 3 |} ]).
Proof.
  split.
  - apply (proj1 (channel_open_validates (fun _ _ _ => Returns "txid") 20000 "02abcdef" 3)).
    right; right; right. simpl. intros H.
    repeat (destruct H as [H|H]; [discriminate H|]). exact H.
  - apply (proj2 (channel_open_validates (fun _ _ _ => Returns "txid") 20000
                    "02abcdef@10.0.0.1:9735" 3)).
    intros [H|[H|[H|H]]]; [lia | lia | discriminate H |].
    apply H. simpl. tauto.
Defined.

(** ** The start-up guard *)

Section Guard.

Context `{M : Models}.

(** C7.  With a backend bound to [ln], a probe that raises the
    423-locked [HTTPException] makes [register_lightning_listener] raise
    that same exception and hand no coroutine to the event loop; with
    [ln_node] empty or ["none"] it returns normally, whatever the
    backend would have said, and hands no coroutine over either. *)
Theorem register_guard (cfg : Settings) :
  (forall detail : string,
     ln_node cfg <> "" -> ln_node cfg <> "none" -> is_Some (ln cfg) ->
     register_lightning_listener cfg (Raises (HTTPException HTTP_423_LOCKED detail))
     = (Raises (HTTPException HTTP_423_LOCKED detail), []))
  /\ (forall probe : outcome LnInfo,
        ln_node cfg = "" \/ ln_node cfg = "none" ->
        register_lightning_listener cfg probe = (Returns tt, [])).
Proof.
  unfold register_lightning_listener. split.
  - intros detail H1 H2 [impl Himpl].
    rewrite (bool_decide_eq_false_2 _ H1), (bool_decide_eq_false_2 _ H2).
    cbn [orb]. rewrite Himpl. reflexivity.
  - intros probe [H|H].
    + rewrite (bool_decide_eq_true_2 _ H). reflexivity.
    + rewrite (bool_decide_eq_true_2 _ H), orb_true_r. reflexivity.
Qed.

(** Only a probe that returns starts the loops, and then all three. *)
Lemma register_starts_all_or_none (cfg : Settings) (probe : outcome LnInfo) :
  snd (register_lightning_listener cfg probe) = []
  \/ (register_lightning_listener cfg probe
      = (Returns tt, [_handle_info_listener; _handle_invoice_listener;
                      _handle_forward_event_listener])
      /\ exists info, probe = Returns info).
Proof.
  unfold register_lightning_listener.
  destruct (bool_decide (ln_node cfg = "") || bool_decide (ln_node cfg = "none"));
    [left; reflexivity|].
  destruct (ln cfg); [|left; reflexivity].
  destruct probe as [info|e]; [right; split; [reflexivity | eexists; reflexivity]|].
  left. destruct e; try reflexivity. destruct args; reflexivity.
Qed.

End Guard.

(** A locked lnd node, and a node that is switched off. *)
Lemma register_guard_witness :
  register_lightning_listener (M := sample_models) sample_settings
    (Raises (HTTPException HTTP_423_LOCKED "Wallet is locked. Unlock via /lightning/unlock-wallet"))
  = (Raises (HTTPException HTTP_423_LOCKED "Wallet is locked. Unlock via /lightning/unlock-wallet"), [])
  /\ register_lightning_listener (M := sample_models) switched_off_settings
       (Returns (3%nat, 812%nat))
     = (Returns tt, []).
Proof.
  split.
  - apply (proj1 (register_guard (M := sample_models) sample_settings)).
    + discriminate.
    + discriminate.
    + exists lnd_grpc. reflexivity.
  - apply (proj2 (register_guard (M := sample_models) switched_off_settings)).
    right. reflexivity.
Defined.

(** ** The coordinator *)

Local Close Scope Z_scope.
Local Close Scope string_scope.

Section Facts.

Context `{M : Models} (cfg : Settings).

(** *** Lists without equal neighbours *)

Lemma no_repeat_nil {A : Type} : no_repeat (@nil A).
Proof. intros i x y H. rewrite lookup_nil in H. discriminate. Qed.

Lemma no_repeat_snoc {A : Type} (l : list A) (x : A) :
  no_repeat l -> last l <> Some x -> no_repeat (l ++ [x]).
Proof.
  intros Hl Hx i a b Ha Hb.
  destruct (decide (S i < length l)) as [Hlt|Hge].
  - rewrite lookup_app_l in Ha by lia. rewrite lookup_app_l in Hb by lia.
    eauto.
  - assert (S i = length l) as Hi.
    { apply lookup_lt_Some in Hb. rewrite length_app in Hb. simpl in Hb. lia. }
    rewrite lookup_app_l in Ha by lia.
    rewrite Hi, lookup_app_r in Hb by lia.
    rewrite Nat.sub_diag in Hb. simpl in Hb. injection Hb as <-.
    intros ->. apply Hx. rewrite last_lookup.
    replace (pred (length l)) with i by lia. exact Ha.
Qed.

(** *** Schedules *)

Lemma run_app (ls1 ls2 : list label) (s : State) :
  run cfg (ls1 ++ ls2) s =
  match run cfg ls1 s with
  | Some s1 => run cfg ls2 s1
  | None => None
  end.
Proof.
  revert s. induction ls1 as [|l ls1 IH]; intros s; simpl; [reflexivity|].
  destruct (step cfg l s); [apply IH | reflexivity].
Qed.

(** A property that holds at the start and that every turn keeps holds
    after every schedule. *)
Lemma run_invariant (P : State -> Prop) :
  (forall l s s', P s -> step cfg l s = Some s' -> P s') ->
  forall ls s s', P s -> run cfg ls s = Some s' -> P s'.
Proof.
  intros Hstep ls. induction ls as [|l ls IH]; intros s s' Hs Hrun; simpl in Hrun.
  - congruence.
  - destruct (step cfg l s) as [s1|] eqn:H1; [|discriminate].
    eapply IH; [|exact Hrun]. eapply Hstep; eauto.
Qed.

(** Unfolds the coroutine bodies down to the setters. *)
Ltac unfold_bodies :=
  unfold info_resume, info_cycle, full_gate, lite_gate, info_listener_at,
    invoice_body, forward_body, fwd_update_start, fwd_update_wake, flush,
    fwd_update_finish, perform_update_start, perform_update_wake,
    perform_update_finish, _schedule_wallet_balance_update,
    broadcast_sse_msg, create_task, set_task, stopped in *.

(** Splits a turn into the paths through the code it stands for. *)
Ltac step_paths H :=
  match type of H with
  | step _ ?l _ = Some _ =>
      destruct l; cbn [step] in H; unfold_bodies;
      repeat (case_match; simplify_eq); simplify_eq
  end.

(** *** Channels of a record that grows *)

Lemma ln_info_channel_snoc (l : list effect) (e : effect) :
  ln_info_channel (l ++ [e]) =
  ln_info_channel l ++ match e with Broadcast (LN_INFO x) => [x] | _ => [] end.
Proof.
  unfold ln_info_channel. rewrite omap_app. f_equal.
  destruct e as [[]| |]; reflexivity.
Qed.

Lemma ln_info_lite_channel_snoc (l : list effect) (e : effect) :
  ln_info_lite_channel (l ++ [e]) =
  ln_info_lite_channel l ++ match e with Broadcast (LN_INFO_LITE x) => [x] | _ => [] end.
Proof.
  unfold ln_info_lite_channel. rewrite omap_app. f_equal.
  destruct e as [[]| |]; reflexivity.
Qed.

Lemma wallet_balance_channel_snoc (l : list effect) (e : effect) :
  wallet_balance_channel (l ++ [e]) =
  wallet_balance_channel l ++ match e with Broadcast (WALLET_BALANCE x) => [x] | _ => [] end.
Proof.
  unfold wallet_balance_channel. rewrite omap_app. f_equal.
  destruct e as [[]| |]; reflexivity.
Qed.

Local Arguments ln_info_channel : simpl never.
Local Arguments ln_info_lite_channel : simpl never.
Local Arguments wallet_balance_channel : simpl never.

Ltac channels :=
  cbn;
  rewrite ?ln_info_channel_snoc, ?ln_info_lite_channel_snoc,
    ?wallet_balance_channel_snoc;
  cbn; rewrite ?app_nil_r.

Ltac decided :=
  repeat match goal with
  | H : bool_decide _ = true |- _ => apply bool_decide_eq_true_1 in H
  | H : bool_decide _ = false |- _ => apply bool_decide_eq_false_1 in H
  end.

(** *** C3: change suppression *)

Lemma step_keeps_channels_tracked (l : label) (s s' : State) :
  (no_repeat (ln_info_channel (log s))
   /\ no_repeat (ln_info_lite_channel (log s))
   /\ no_repeat (wallet_balance_channel (log s)))
  /\ caches_track_channels s /\ info_listener_fresh s ->
  step cfg l s = Some s' ->
  (no_repeat (ln_info_channel (log s'))
   /\ no_repeat (ln_info_lite_channel (log s'))
   /\ no_repeat (wallet_balance_channel (log s')))
  /\ caches_track_channels s' /\ info_listener_fresh s'.
Proof.
  intros ((Hf & Hl & Hw) & (Hc & Hi) & Hcr) Hstep.
  unfold info_listener_fresh in Hcr.
  step_paths Hstep; decided.
  all: unfold caches_track_channels, info_listener_fresh; channels.
  all: try (specialize (Hi _ eq_refl); destruct Hi as [Hi1 Hi2];
            specialize (Hcr _ eq_refl)).
  all: repeat match goal with
       | |- _ /\ _ => split
       | |- forall il, Some _ = Some il -> _ => intros ? [= <-]; cbn
       | |- forall il, info_task _ = Some il -> _ => assumption
       | |- no_repeat (_ ++ [_]) => apply no_repeat_snoc
       | |- no_repeat _ => assumption
       | |- _ = last (_ ++ [_]) => rewrite last_snoc
       end; try assumption; try reflexivity; try congruence.
  all: match goal with
       | H0 : info_at _ = info_created |- _ =>
           destruct (Hcr H0) as [E1 E2]; congruence
       end.
Qed.

Lemma registered_channels_tracked :
  (no_repeat (ln_info_channel (log registered))
   /\ no_repeat (ln_info_lite_channel (log registered))
   /\ no_repeat (wallet_balance_channel (log registered)))
  /\ caches_track_channels registered /\ info_listener_fresh registered.
Proof.
  split; [repeat split; apply no_repeat_nil|].
  split; [split; [reflexivity|]|].
  - intros il [= <-]. split; reflexivity.
  - intros il [= <-] _. split; reflexivity.
Qed.

(** C3.  After every schedule, started from the state a successful
    registration leaves, none of the three gated channels (full node
    info, lite node info, wallet balance) carries two equal values in a
    row, and each cache holds the value last broadcast on its channel. *)
Theorem suppressible_channels_never_repeat (ls : list label) (s : State) :
  run cfg ls registered = Some s ->
  no_repeat (ln_info_channel (log s))
  /\ no_repeat (ln_info_lite_channel (log s))
  /\ no_repeat (wallet_balance_channel (log s))
  /\ caches_track_channels s.
Proof.
  intros Hrun.
  pose proof (run_invariant _ step_keeps_channels_tracked ls registered s
                registered_channels_tracked Hrun) as ((Hf & Hl & Hw) & Hc & _).
  tauto.
Qed.
(** *** C8: the invoice relay *)

Lemma invoice_listener_effects_snoc (l : list effect) (e : effect) :
  invoice_listener_effects (l ++ [e]) =
  invoice_listener_effects l ++
  match e with
  | Broadcast (LN_INVOICE_STATUS _) => [e]
  | MarkDirty by_invoice_listener => [e]
  | _ => []
  end.
Proof.
  unfold invoice_listener_effects. rewrite omap_app. f_equal.
  destruct e as [[]|[]|]; reflexivity.
Qed.

Lemma invoice_channel_snoc (l : list effect) (e : effect) :
  invoice_channel (l ++ [e]) =
  invoice_channel l ++ match e with Broadcast (LN_INVOICE_STATUS x) => [x] | _ => [] end.
Proof.
  unfold invoice_channel. rewrite omap_app. f_equal.
  destruct e as [[]| |]; reflexivity.
Qed.

Local Arguments invoice_listener_effects : simpl never.
Local Arguments invoice_channel : simpl never.

(** What one turn adds to the invoice listener's part of the record. *)
Lemma step_invoice_effects (l : label) (s s' : State) :
  step cfg l s = Some s' ->
  invoice_listener_effects (log s') =
    invoice_listener_effects (log s) ++
    flat_map (fun i => [Broadcast (LN_INVOICE_STATUS i); MarkDirty by_invoice_listener])
      (invoices_delivered [l])
  /\ invoice_channel (log s') = invoice_channel (log s) ++ invoices_delivered [l].
Proof.
  intros Hstep. step_paths Hstep.
  all: cbn; rewrite ?invoice_listener_effects_snoc, ?invoice_channel_snoc; cbn;
    rewrite ?app_nil_r, <- ?app_assoc; split; reflexivity.
Qed.

Lemma run_invoice_effects (ls : list label) (s s' : State) :
  run cfg ls s = Some s' ->
  invoice_listener_effects (log s') =
    invoice_listener_effects (log s) ++
    flat_map (fun i => [Broadcast (LN_INVOICE_STATUS i); MarkDirty by_invoice_listener])
      (invoices_delivered ls)
  /\ invoice_channel (log s') = invoice_channel (log s) ++ invoices_delivered ls.
Proof.
  revert s. induction ls as [|l ls IH]; intros s Hrun; simpl in Hrun.
  - injection Hrun as <-. cbn. rewrite !app_nil_r. split; reflexivity.
  - destruct (step cfg l s) as [s1|] eqn:H1; [|discriminate].
    destruct (IH s1 Hrun) as [E1 E2].
    destruct (step_invoice_effects l s s1 H1) as [F1 F2].
    rewrite E1, E2, F1, F2.
    change (l :: ls) with ([l] ++ ls).
    unfold invoices_delivered. rewrite omap_app, flat_map_app, <- !app_assoc.
    split; reflexivity.
Qed.

(** C8.  A listening invoice relay handles every event the backend
    stream yields: in that very turn it broadcasts the event as it came
    and then marks the wallet balance dirty, which queues a refresh
    unless the flag says one is scheduled.  Over a whole schedule the
    relay's part of the record is, for each delivered invoice in
    delivery order, its broadcast followed by the signal, and the invoice
    channel carries exactly the delivered invoices, in order. *)
Theorem invoice_relay_forwards_everything :
  (forall (s : State) (i : Invoice),
     invoice_task s = Some listening ->
     exists s', step cfg (InvoiceNext i) s = Some s'
       /\ log s' = log s ++ [Broadcast (LN_INVOICE_STATUS i);
                              MarkDirty by_invoice_listener]
       /\ tasks s' = tasks s ++ (if _wallet_balance_update_scheduled s
                                 then [] else [perform_update_created]))
  /\ (forall (ls : list label) (s : State),
        run cfg ls registered = Some s ->
        invoice_listener_effects (log s) =
          flat_map (fun i => [Broadcast (LN_INVOICE_STATUS i);
                              MarkDirty by_invoice_listener])
            (invoices_delivered ls)
        /\ invoice_channel (log s) = invoices_delivered ls).
Proof.
  split.
  - intros s i Hl. cbn [step]. rewrite Hl. eexists; split; [reflexivity|].
    unfold_bodies. destruct (_wallet_balance_update_scheduled s) eqn:Hflag; cbn;
      rewrite ?Hflag; cbn; rewrite <- ?app_assoc, ?app_nil_r; split; reflexivity.
  - intros ls s Hrun. apply run_invoice_effects in Hrun. exact Hrun.
Qed.

(** *** C4: the flush cycle *)

Lemma forward_channel_snoc (l : list effect) (e : effect) :
  forward_channel (l ++ [e]) =
  forward_channel l ++ match e with Broadcast (LN_FORWARD_SUCCESSES x) => [x] | _ => [] end.
Proof.
  unfold forward_channel. rewrite omap_app. f_equal.
  destruct e as [[]| |]; reflexivity.
Qed.

Lemma fee_revenue_channel_snoc (l : list effect) (e : effect) :
  fee_revenue_channel (l ++ [e]) =
  fee_revenue_channel l ++ match e with Broadcast (LN_FEE_REVENUE x) => [x] | _ => [] end.
Proof.
  unfold fee_revenue_channel. rewrite omap_app. f_equal.
  destruct e as [[]| |]; reflexivity.
Qed.

Local Arguments forward_channel : simpl never.
Local Arguments fee_revenue_channel : simpl never.

(** With forward notifications off nothing enters the buffer, and an
    empty buffer is never broadcast. *)
Lemma step_keeps_buffer_empty (l : label) (s s' : State) :
  ENABLE_FWD_NOTIFICATIONS cfg = false ->
  _fwd_successes s = [] /\ forward_channel (log s) = [] ->
  step cfg l s = Some s' ->
  _fwd_successes s' = [] /\ forward_channel (log s') = [].
Proof.
  intros Hoff [Hb Hc] Hstep. step_paths Hstep.
  all: cbn; rewrite ?forward_channel_snoc; cbn; rewrite ?app_nil_r;
    try (split; assumption).
  all: try congruence.
  all: match goal with
       | H : (0 <? length (_fwd_successes _))%nat = true |- _ =>
           rewrite Hb in H; discriminate H
       end.
Qed.

(** C4.  When the sleep of a flush task is over it broadcasts the buffer
    as one batch if and only if the buffer is not empty, empties it,
    marks the wallet balance dirty and calls for the fee revenue, the
    last two whatever the buffer held; when the revenue comes back it is
    broadcast and the flag is cleared.  With forward notifications off a
    forward event still queues a flush task when none is flagged, the
    buffer stays empty and no batch is ever broadcast. *)
Theorem flush_cycle :
  (forall (s : State) (k : nat) (until : option Q),
     tasks s !! k = Some (fwd_update_sleeping until) ->
     due until (now s) = true ->
     exists s', step cfg (Wake k) s = Some s'
       /\ log s' = log s
                   ++ match _fwd_successes s with
                      | [] => []
                      | _ :: _ => [Broadcast (LN_FORWARD_SUCCESSES (_fwd_successes s))]
                      end
                   ++ [MarkDirty by_fwd_update; Called get_fee_revenue_impl]
       /\ _fwd_successes s' = []
       /\ tasks s' !! k = Some fwd_update_fetching)
  /\ (forall (s : State) (k : nat) (rev : FeeRevenue),
        tasks s !! k = Some fwd_update_fetching ->
        exists s', step cfg (Reply k (fee_revenue (Returns rev))) s = Some s'
          /\ log s' = log s ++ [Broadcast (LN_FEE_REVENUE rev)]
          /\ _fwd_update_scheduled s' = false)
  /\ (ENABLE_FWD_NOTIFICATIONS cfg = false ->
        (forall (s : State) (i : ForwardSuccessEvent),
           forward_task s = Some listening ->
           _fwd_update_scheduled s = false ->
           exists s', step cfg (ForwardNext i) s = Some s'
             /\ tasks s' = tasks s ++ [fwd_update_created]
             /\ _fwd_successes s' = _fwd_successes s)
        /\ (forall (ls : list label) (s : State),
              run cfg ls registered = Some s ->
              _fwd_successes s = [] /\ forward_channel (log s) = [])).
Proof.
  split; [|split].
  - intros s k until Hk Hdue. cbn [step]. rewrite Hk, Hdue.
    eexists; split; [reflexivity|].
    assert (k < length (tasks s)) as Hlen by (eapply lookup_lt_Some; eauto).
    unfold_bodies.
    destruct (_fwd_successes s) as [|i l] eqn:Hbuf;
      destruct (_wallet_balance_update_scheduled s) eqn:Hflag; cbn;
      rewrite ?Hflag; cbn; rewrite <- ?app_assoc; cbn.
    all: repeat split; try reflexivity; try assumption.
    all: rewrite list_lookup_insert_eq; [reflexivity|];
      rewrite ?length_app; cbn; lia.
  - intros s k rev Hk. cbn [step]. rewrite Hk.
    eexists; split; [reflexivity|]. cbn. split; reflexivity.
  - intros Hoff. split.
    + intros s i Hl Hflag. cbn [step]. rewrite Hl.
      eexists; split; [reflexivity|]. unfold forward_body. rewrite Hoff, Hflag.
      cbn. split; reflexivity.
    + intros ls s Hrun.
      refine (run_invariant _ (fun l s s' => step_keeps_buffer_empty l s s' Hoff)
                ls registered s _ Hrun).
      split; reflexivity.
Qed.
(** *** C6: the two gates of the info listener *)

(** What a poll that returns [info] adds to the record: each gate looks
    at its own cache only. *)
Lemma info_reply_effects (s : State) (il : info_listener) (info : LnInfo) :
  info_task s = Some il ->
  info_at il = info_fetching ->
  exists s', step cfg (InfoReply (Returns info)) s = Some s'
    /\ log s' = log s
                ++ (if decide (last_info il = Some info)
                    then [] else [Broadcast (LN_INFO info)])
                ++ (if decide (last_info_lite il = Some (from_lninfo info))
                    then [] else [Broadcast (LN_INFO_LITE (from_lninfo info))])
    /\ info_task s' =
         info_listener_at (info_sleeping (deadline (now s) (GATHER_INFO_INTERVALL cfg)))
           (Some info) (Some (from_lninfo info)).
Proof.
  intros Hil Hat. cbn [step]. rewrite Hil, Hat.
  eexists; split; [reflexivity|].
  unfold info_cycle, full_gate, lite_gate, broadcast_sse_msg.
  destruct (decide (last_info il = Some info)) as [E1|E1];
    destruct (decide (last_info_lite il = Some (from_lninfo info))) as [E2|E2].
  - rewrite !bool_decide_eq_false_2 by (intros ?; contradiction).
    cbn. rewrite app_nil_r. split; [reflexivity|]. congruence.
  - rewrite bool_decide_eq_false_2 by (intros ?; contradiction).
    rewrite bool_decide_eq_true_2 by assumption.
    cbn. split; [reflexivity|]. congruence.
  - rewrite bool_decide_eq_true_2 by assumption.
    rewrite bool_decide_eq_false_2 by (intros ?; contradiction).
    cbn. split; [reflexivity|]. congruence.
  - rewrite !bool_decide_eq_true_2 by assumption.
    cbn. rewrite <- app_assoc. split; reflexivity.
Qed.

(** The listener's locals are its own: no other turn touches them. *)
Lemma step_keeps_info_locals (l : label) (s s' : State) (il : info_listener) :
  step cfg l s = Some s' ->
  info_replies [l] = [] ->
  info_task s = Some il ->
  info_at il <> info_created ->
  exists il', info_task s' = Some il'
    /\ last_info il' = last_info il
    /\ last_info_lite il' = last_info_lite il
    /\ info_at il' <> info_created.
Proof.
  intros Hstep Hl Hil Hat. step_paths Hstep; try discriminate Hl.
  all: cbn; eexists; split; [reflexivity || eassumption|]; cbn;
    repeat split; try reflexivity; try assumption; try discriminate.
Qed.

Lemma run_keeps_info_locals (ls : list label) (s s' : State) (il : info_listener) :
  run cfg ls s = Some s' ->
  info_replies ls = [] ->
  info_task s = Some il ->
  info_at il <> info_created ->
  exists il', info_task s' = Some il'
    /\ last_info il' = last_info il
    /\ last_info_lite il' = last_info_lite il
    /\ info_at il' <> info_created.
Proof.
  revert s il. induction ls as [|l ls IH]; intros s il Hrun Hls Hil Hat; simpl in Hrun.
  - injection Hrun as <-. exists il. tauto.
  - destruct (step cfg l s) as [s1|] eqn:H1; [|discriminate].
    change (l :: ls) with ([l] ++ ls) in Hls. unfold info_replies in Hls.
    rewrite omap_app in Hls. apply app_eq_nil in Hls as [Hl Hls].
    destruct (step_keeps_info_locals l s s1 il H1 Hl Hil Hat)
      as (il1 & Hil1 & E1 & E2 & Hat1).
    destruct (IH s1 il1 Hrun Hls Hil1 Hat1) as (il' & Hil' & F1 & F2 & Hat').
    exists il'. repeat split; try assumption; congruence.
Qed.

(** C6.  A poll that returns [info] broadcasts on the full channel
    exactly when [info] differs from [last_info], and on the lite channel
    exactly when its projection differs from [last_info_lite]: neither
    gate looks at the other.  Hence, of two polls in a row that return
    [a] and then [b] with [a <> b] and equal projections, the second
    broadcasts [b] on the full channel and nothing on the lite channel;
    and a listener whose [last_info] is [b] but whose [last_info_lite] is
    not the projection of [b] broadcasts on the lite channel only. *)
Theorem info_gates_independent :
  (forall (s : State) (il : info_listener) (info : LnInfo),
     info_task s = Some il -> info_at il = info_fetching ->
     exists s', step cfg (InfoReply (Returns info)) s = Some s'
       /\ log s' = log s
                   ++ (if decide (last_info il = Some info)
                       then [] else [Broadcast (LN_INFO info)])
                   ++ (if decide (last_info_lite il = Some (from_lninfo info))
                       then [] else [Broadcast (LN_INFO_LITE (from_lninfo info))]))
  /\ (forall (s s2 s3 : State) (ls : list label) (a b : LnInfo),
        run cfg (InfoReply (Returns a) :: ls) s = Some s2 ->
        info_replies ls = [] ->
        step cfg (InfoReply (Returns b)) s2 = Some s3 ->
        a <> b -> from_lninfo a = from_lninfo b ->
        log s3 = log s2 ++ [Broadcast (LN_INFO b)])
  /\ (forall (s : State) (il : info_listener) (b : LnInfo),
        info_task s = Some il -> info_at il = info_fetching ->
        last_info il = Some b ->
        last_info_lite il <> Some (from_lninfo b) ->
        exists s', step cfg (InfoReply (Returns b)) s = Some s'
          /\ log s' = log s ++ [Broadcast (LN_INFO_LITE (from_lninfo b))]).
Proof.
  split; [|split].
  - intros s il info Hil Hat.
    destruct (info_reply_effects s il info Hil Hat) as (s' & H1 & H2 & _).
    exists s'. split; assumption.
  - intros s s2 s3 ls a b Hrun Hls Hstep Hab Hlite.
    cbn [run] in Hrun.
    destruct (step cfg (InfoReply (Returns a)) s) as [s1|] eqn:H1; [|discriminate].
    assert (exists il, info_task s = Some il /\ info_at il = info_fetching)
      as (il & Hil & Hat).
    { cbn [step] in H1. destruct (info_task s) as [il|]; [|discriminate].
      exists il. split; [reflexivity|]. destruct (info_at il); try discriminate.
      reflexivity. }
    destruct (info_reply_effects s il a Hil Hat) as (s1' & H1' & _ & Hil1).
    rewrite H1 in H1'. injection H1' as <-.
    destruct (run_keeps_info_locals ls s1 s2 _ Hrun Hls Hil1)
      as (il2 & Hil2 & E1 & E2 & _); [discriminate|].
    cbn in E1, E2.
    assert (info_at il2 = info_fetching) as Hat2.
    { cbn [step] in Hstep. rewrite Hil2 in Hstep.
      destruct (info_at il2); try discriminate. reflexivity. }
    destruct (info_reply_effects s2 il2 b Hil2 Hat2) as (s3' & H3 & Hlog & _).
    rewrite Hstep in H3. injection H3 as <-.
    rewrite Hlog, E1, E2.
    rewrite decide_False by congruence.
    rewrite decide_True by congruence.
    reflexivity.
  - intros s il b Hil Hat Hfull Hl.
    destruct (info_reply_effects s il b Hil Hat) as (s' & H1 & Hlog & _).
    exists s'. split; [assumption|].
    rewrite Hlog, decide_True, decide_False by assumption. reflexivity.
Qed.

(** *** C5: a poll that fails *)

Lemma info_polls_snoc (l : list effect) (e : effect) :
  info_polls (l ++ [e]) =
  info_polls l + match e with Called get_ln_info_impl => 1 | _ => 0 end.
Proof.
  unfold info_polls. rewrite omap_app, length_app. f_equal.
  destruct e as [| |[]]; reflexivity.
Qed.

Local Arguments info_polls : simpl never.

(** Once the listener has raised, no turn is its own any more. *)
Lemma step_after_raise (l : label) (s s' : State) (il : info_listener) (e : exn) :
  info_task s = Some il -> info_at il = info_raised e ->
  step cfg l s = Some s' ->
  info_task s' = Some il
  /\ ln_info_channel (log s') = ln_info_channel (log s)
  /\ ln_info_lite_channel (log s') = ln_info_lite_channel (log s)
  /\ info_polls (log s') = info_polls (log s).
Proof.
  intros Hil Hat Hstep. step_paths Hstep; try congruence.
  all: channels; rewrite ?info_polls_snoc; cbn; rewrite ?Nat.add_0_r;
    repeat split; try reflexivity; try assumption.
Qed.

Lemma run_after_raise (ls : list label) (s s' : State) (il : info_listener) (e : exn) :
  info_task s = Some il -> info_at il = info_raised e ->
  run cfg ls s = Some s' ->
  info_task s' = Some il
  /\ ln_info_channel (log s') = ln_info_channel (log s)
  /\ ln_info_lite_channel (log s') = ln_info_lite_channel (log s)
  /\ info_polls (log s') = info_polls (log s).
Proof.
  revert s. induction ls as [|l ls IH]; intros s Hil Hat Hrun; simpl in Hrun.
  - injection Hrun as <-. tauto.
  - destruct (step cfg l s) as [s1|] eqn:H1; [|discriminate].
    destruct (step_after_raise l s s1 il e Hil Hat H1) as (Hil1 & E1 & E2 & E3).
    destruct (IH s1 Hil1 Hat Hrun) as (Hil' & F1 & F2 & F3).
    repeat split; congruence.
Qed.

(** C5, as the code has it.  When [ln.get_ln_info_impl] raises, the
    exception leaves the [while] loop and ends the listener: that turn
    adds nothing to the record, and from then on, whatever the schedule,
    the listener is never resumed, polls no more and broadcasts nothing.
    A poll that returns is followed by a sleep of
    [GATHER_INFO_INTERVALL]. *)
Theorem info_listener_ends_on_failure :
  (forall (s : State) (il : info_listener) (e : exn),
     info_task s = Some il -> info_at il = info_fetching ->
     exists s', step cfg (InfoReply (Raises e)) s = Some s'
       /\ log s' = log s
       /\ info_task s' =
            info_listener_at (info_raised e) (last_info il) (last_info_lite il))
  /\ (forall (ls : list label) (s s' : State) (il : info_listener) (e : exn),
        info_task s = Some il -> info_at il = info_raised e ->
        run cfg ls s = Some s' ->
        info_task s' = Some il
        /\ step cfg InfoResumes s' = None
        /\ ln_info_channel (log s') = ln_info_channel (log s)
        /\ ln_info_lite_channel (log s') = ln_info_lite_channel (log s)
        /\ info_polls (log s') = info_polls (log s))
  /\ (forall (s : State) (il : info_listener) (info : LnInfo),
        info_task s = Some il -> info_at il = info_fetching ->
        exists s', step cfg (InfoReply (Returns info)) s = Some s'
          /\ info_task s' =
               info_listener_at
                 (info_sleeping (deadline (now s) (GATHER_INFO_INTERVALL cfg)))
                 (Some info) (Some (from_lninfo info))).
Proof.
  split; [|split].
  - intros s il e Hil Hat. cbn [step]. rewrite Hil, Hat.
    eexists; split; [reflexivity|]. cbn. split; reflexivity.
  - intros ls s s' il e Hil Hat Hrun.
    destruct (run_after_raise ls s s' il e Hil Hat Hrun) as (Hil' & E1 & E2 & E3).
    repeat split; try assumption.
    cbn [step]. rewrite Hil'. unfold info_resume. rewrite Hat. reflexivity.
  - intros s il info Hil Hat.
    destruct (info_reply_effects s il info Hil Hat) as (s' & H1 & _ & H3).
    exists s'. split; assumption.
Qed.
(** *** C2: the balance flag *)

(** A signal that finds the flag set is absorbed: apart from the entry
    in the record, nothing changes. *)
Lemma mark_dirty_absorbed (c : caller) (s : State) :
  _wallet_balance_update_scheduled s = true ->
  _schedule_wallet_balance_update c s = record (MarkDirty c) s.
Proof.
  intros Hflag. unfold _schedule_wallet_balance_update. cbn. rewrite Hflag.
  reflexivity.
Qed.

(** A signal that finds the flag clear queues a task and leaves the flag
    clear: only the task, once it runs, sets it. *)
Lemma mark_dirty_queues (c : caller) (s : State) :
  _wallet_balance_update_scheduled s = false ->
  tasks (_schedule_wallet_balance_update c s) = tasks s ++ [perform_update_created]
  /\ _wallet_balance_update_scheduled (_schedule_wallet_balance_update c s) = false.
Proof.
  intros Hflag. unfold _schedule_wallet_balance_update. cbn. rewrite Hflag.
  cbn. split; [reflexivity | assumption].
Qed.

(** *** C1: one flush window *)

Lemma insert_at_length {A : Type} (l r : list A) (x y : A) :
  <[length l := y]> (l ++ x :: r) = l ++ y :: r.
Proof.
  rewrite insert_app_r_alt by lia. rewrite Nat.sub_diag. reflexivity.
Qed.

Lemma lookup_at_length {A : Type} (l r : list A) (x : A) :
  (l ++ x :: r) !! length l = Some x.
Proof. rewrite lookup_app_r by lia. rewrite Nat.sub_diag. reflexivity. Qed.




(** *** Forward events are neither lost nor repeated *)

Lemma step_conserves_forwards (l : label) (s s' : State) :
  ENABLE_FWD_NOTIFICATIONS cfg = true ->
  step cfg l s = Some s' ->
  concat (forward_channel (log s')) ++ _fwd_successes s'
  = concat (forward_channel (log s)) ++ _fwd_successes s ++ forwards_delivered [l].
Proof.
  intros Hon Hstep. step_paths Hstep.
  all: cbn; rewrite ?forward_channel_snoc; cbn;
    rewrite ?app_nil_r, ?concat_app; cbn; rewrite ?app_nil_r; try reflexivity.
  all: try congruence.
  all: match goal with
       | H : (0 <? length (_fwd_successes ?s))%nat = false |- _ =>
           apply Nat.ltb_ge in H; destruct (_fwd_successes s); cbn in H;
           [reflexivity | lia]
       end.
Qed.

Lemma step_keeps_batches_nonempty (l : label) (s s' : State) :
  Forall (fun b => b <> []) (forward_channel (log s)) ->
  step cfg l s = Some s' ->
  Forall (fun b => b <> []) (forward_channel (log s')).
Proof.
  intros Hne Hstep. step_paths Hstep.
  all: cbn; rewrite ?forward_channel_snoc; cbn; rewrite ?app_nil_r;
    try assumption.
  all: apply Forall_app; split; [assumption|]; constructor; [|constructor].
  all: match goal with
       | H : (0 <? length ?b)%nat = true |- ?b <> [] =>
           intros E; rewrite E in H; discriminate H
       end.
Qed.

(** With forward notifications on, after every schedule from the
    registered state the batches broadcast so far, one after the other,
    followed by what is still in the buffer, are exactly the forward
    events delivered, each once and in delivery order; and no batch that
    was broadcast is empty. *)
Theorem forward_events_conserved (ls : list label) (s : State) :
  ENABLE_FWD_NOTIFICATIONS cfg = true ->
  run cfg ls registered = Some s ->
  concat (forward_channel (log s)) ++ _fwd_successes s = forwards_delivered ls
  /\ Forall (fun b => b <> []) (forward_channel (log s)).
Proof.
  intros Hon Hrun. split.
  - assert (forall ls s0 s1, run cfg ls s0 = Some s1 ->
              concat (forward_channel (log s1)) ++ _fwd_successes s1
              = concat (forward_channel (log s0)) ++ _fwd_successes s0
                ++ forwards_delivered ls) as Hgen.
    { clear ls s Hrun. induction ls as [|l ls IH]; intros s0 s1 Hrun; cbn [run] in Hrun.
      - injection Hrun as <-. cbn. rewrite app_nil_r. reflexivity.
      - destruct (step cfg l s0) as [s'|] eqn:H1; [|discriminate].
        rewrite (IH s' s1 Hrun), app_assoc,
          (step_conserves_forwards l s0 s' Hon H1).
        change (l :: ls) with ([l] ++ ls). unfold forwards_delivered.
        rewrite omap_app, <- !app_assoc. reflexivity. }
    rewrite (Hgen ls registered s Hrun). reflexivity.
  - refine (run_invariant _ step_keeps_batches_nonempty ls registered s _ Hrun).
    constructor.
Qed.

(** *** Counting tasks *)

Lemma count_snoc (p : task -> bool) (l : list task) (t : task) :
  length (List.filter p (l ++ [t]))
  = length (List.filter p l) + (if p t then 1 else 0).
Proof.
  rewrite List.filter_app, length_app. cbn. destruct (p t); reflexivity.
Qed.

Lemma count_lookup (p : task -> bool) (l : list task) (k : nat) (t : task) :
  l !! k = Some t -> (if p t then 1 else 0) <= length (List.filter p l).
Proof.
  revert k. induction l as [|x l IH]; intros k Hk; [discriminate Hk|].
  destruct k as [|k]; cbn in Hk |- *.
  - injection Hk as ->. destruct (p t); cbn; lia.
  - specialize (IH k Hk). destruct (p x); cbn; lia.
Qed.

Lemma count_insert (p : task -> bool) (l : list task) (k : nat) (t t' : task) :
  l !! k = Some t ->
  length (List.filter p (<[k:=t']> l))
  = length (List.filter p l) + (if p t' then 1 else 0) - (if p t then 1 else 0).
Proof.
  revert k. induction l as [|x l IH]; intros k Hk; [discriminate Hk|].
  destruct k as [|k].
  - cbn in Hk. injection Hk as ->. cbn. destruct (p t), (p t'); cbn; lia.
  - change (<[S k:=t']> (x :: l)) with (x :: <[k:=t']> l).
    change ((x :: l) !! S k) with (l !! k) in Hk.
    pose proof (count_lookup p l k t Hk) as Hle. specialize (IH k Hk).
    cbn [List.filter]. destruct (p x); cbn [length]; rewrite IH;
      destruct (p t), (p t'); cbn in *; lia.
Qed.

Lemma count_insert_app (p : task -> bool) (l r : list task) (k : nat) (t t' : task) :
  l !! k = Some t ->
  length (List.filter p (<[k:=t']> (l ++ r)))
  = length (List.filter p l) + length (List.filter p r)
    + (if p t' then 1 else 0) - (if p t then 1 else 0).
Proof.
  intros Hk. pose proof (lookup_lt_Some _ _ _ Hk) as Hlt.
  pose proof (count_lookup p l k t Hk) as Hle.
  rewrite insert_app_l by exact Hlt.
  rewrite List.filter_app, length_app, (count_insert p l k t t' Hk). lia.
Qed.

(** Brings the counts of a turn's task list back to those of the list
    it started from. *)
Ltac count_tasks :=
  repeat match goal with
  | H : ?l !! ?k = Some ?t |- context [List.filter ?p (<[?k:=?t']> (?l ++ ?r))] =>
      rewrite (count_insert_app p l r k t t' H);
      pose proof (count_lookup p l k t H)
  | H : ?l !! ?k = Some ?t |- context [List.filter ?p (<[?k:=?t']> ?l)] =>
      rewrite (count_insert p l k t t' H);
      pose proof (count_lookup p l k t H)
  | |- context [List.filter ?p (?l ++ [?t])] => rewrite (count_snoc p l t)
  end.

Lemma balance_fetches_snoc (l : list effect) (e : effect) :
  balance_fetches (l ++ [e]) =
  balance_fetches l + match e with Called get_wallet_balance_impl => 1 | _ => 0 end.
Proof.
  unfold balance_fetches. rewrite omap_app, length_app. f_equal.
  destruct e as [| |[]]; reflexivity.
Qed.

Lemma revenue_fetches_snoc (l : list effect) (e : effect) :
  revenue_fetches (l ++ [e]) =
  revenue_fetches l + match e with Called get_fee_revenue_impl => 1 | _ => 0 end.
Proof.
  unfold revenue_fetches. rewrite omap_app, length_app. f_equal.
  destruct e as [| |[]]; reflexivity.
Qed.

Lemma dirty_marks_snoc (l : list effect) (e : effect) :
  dirty_marks (l ++ [e]) = dirty_marks l + match e with MarkDirty _ => 1 | _ => 0 end.
Proof.
  unfold dirty_marks. rewrite omap_app, length_app. f_equal.
  destruct e as [| |]; reflexivity.
Qed.

Local Arguments balance_fetches : simpl never.
Local Arguments revenue_fetches : simpl never.
Local Arguments dirty_marks : simpl never.

Ltac records :=
  cbn;
  rewrite ?ln_info_channel_snoc, ?ln_info_lite_channel_snoc,
    ?wallet_balance_channel_snoc, ?forward_channel_snoc, ?fee_revenue_channel_snoc,
    ?invoice_channel_snoc, ?balance_fetches_snoc, ?revenue_fetches_snoc,
    ?dirty_marks_snoc, ?info_polls_snoc;
  cbn; rewrite ?app_nil_r.

(** *** No fetch without a cause *)

Lemma step_balance_fetch_bound (l : label) (s s' : State) :
  step cfg l s = Some s' ->
  balance_fetches (log s') + pending is_perform_waiting s' + dirty_marks (log s)
  <= balance_fetches (log s) + pending is_perform_waiting s + dirty_marks (log s').
Proof.
  intros Hstep. unfold pending. step_paths Hstep.
  all: records; count_tasks; cbn in *; lia.
Qed.

Lemma step_revenue_fetch_bound (l : label) (s s' : State) :
  step cfg l s = Some s' ->
  revenue_fetches (log s') + pending is_fwd_waiting s'
  <= revenue_fetches (log s) + pending is_fwd_waiting s
     + length (forwards_delivered [l]).
Proof.
  intros Hstep. unfold pending. step_paths Hstep.
  all: records; count_tasks; cbn in *; lia.
Qed.

(** After every schedule from the registered state, the wallet balance
    has been fetched at most as often as it was marked dirty, and the
    fee revenue at most as often as forward events were delivered: the
    tasks still waiting to fetch included. *)
Theorem fetches_have_causes (ls : list label) (s : State) :
  run cfg ls registered = Some s ->
  balance_fetches (log s) + pending is_perform_waiting s <= dirty_marks (log s)
  /\ revenue_fetches (log s) + pending is_fwd_waiting s
     <= length (forwards_delivered ls).
Proof.
  intros Hrun.
  assert (forall ls s0 s1, run cfg ls s0 = Some s1 ->
            balance_fetches (log s1) + pending is_perform_waiting s1
              + dirty_marks (log s0)
            <= balance_fetches (log s0) + pending is_perform_waiting s0
               + dirty_marks (log s1)
            /\ revenue_fetches (log s1) + pending is_fwd_waiting s1
               <= revenue_fetches (log s0) + pending is_fwd_waiting s0
                  + length (forwards_delivered ls)) as Hgen.
  { clear ls s Hrun. induction ls as [|l ls IH]; intros s0 s1 Hrun; cbn [run] in Hrun.
    - injection Hrun as <-. cbn. lia.
    - destruct (step cfg l s0) as [s'|] eqn:H1; [|discriminate].
      destruct (IH s' s1 Hrun) as [A1 A2].
      pose proof (step_balance_fetch_bound l s0 s' H1) as B1.
      pose proof (step_revenue_fetch_bound l s0 s' H1) as B2.
      change (l :: ls) with ([l] ++ ls). unfold forwards_delivered in *.
      rewrite omap_app, length_app. lia. }
  destruct (Hgen ls registered s Hrun) as [A1 A2].
  unfold balance_fetches, revenue_fetches, dirty_marks, pending in *.
  cbn in A1, A2. lia.
Qed.

(** *** A refresh that fails leaves its flag set *)

Lemma step_keeps_balance_stuck (l : label) (s s' : State) :
  _wallet_balance_update_scheduled s = true ->
  pending is_perform_update s = 0 ->
  step cfg l s = Some s' ->
  _wallet_balance_update_scheduled s' = true
  /\ pending is_perform_update s' = 0
  /\ wallet_balance_channel (log s') = wallet_balance_channel (log s)
  /\ balance_fetches (log s') = balance_fetches (log s)
  /\ _CACHE_wallet_balance s' = _CACHE_wallet_balance s.
Proof.
  intros Hflag Hnone Hstep. unfold pending in *. step_paths Hstep;
    try congruence.
  all: try match goal with
       | H : tasks _ !! _ = Some ?t |- _ =>
           pose proof (count_lookup is_perform_update _ _ _ H) as Hc;
           cbn in Hc; lia
       end.
  all: records; count_tasks; cbn in *.
  all: try match goal with
       | H0 : negb ?b = true, Hf : ?b = true |- _ =>
           rewrite Hf in H0; discriminate H0
       end.
  all: repeat split; try reflexivity; try assumption; try lia.
Qed.

(** When [ln.get_wallet_balance_impl] raises in the only refresh that
    is under way, [_wallet_balance_update_scheduled] is left set with no
    task behind it: whatever is scheduled afterwards, every later signal
    is absorbed, the balance is never fetched again and nothing more is
    broadcast on the wallet-balance channel. *)
Theorem balance_refresh_stops_after_failure
    (s : State) (k : nat) (e : exn) :
  tasks s !! k = Some perform_update_fetching ->
  pending is_perform_update s = 1 ->
  _wallet_balance_update_scheduled s = true ->
  exists s1,
    step cfg (Reply k (wallet_balance (Raises e))) s = Some s1
    /\ forall (ls : list label) (s' : State),
         run cfg ls s1 = Some s' ->
         _wallet_balance_update_scheduled s' = true
         /\ pending is_perform_update s' = 0
         /\ wallet_balance_channel (log s') = wallet_balance_channel (log s)
         /\ balance_fetches (log s') = balance_fetches (log s)
         /\ _CACHE_wallet_balance s' = _CACHE_wallet_balance s.
Proof.
  intros Hk Hone Hflag. cbn [step]. rewrite Hk.
  eexists; split; [reflexivity|].
  intros ls s' Hrun.
  refine (run_invariant
            (fun x => _wallet_balance_update_scheduled x = true
                      /\ pending is_perform_update x = 0
                      /\ wallet_balance_channel (log x) = wallet_balance_channel (log s)
                      /\ balance_fetches (log x) = balance_fetches (log s)
                      /\ _CACHE_wallet_balance x = _CACHE_wallet_balance s)
            _ ls _ s' _ Hrun).
  - intros l x x' (A1 & A2 & A3 & A4 & A5) Hstep.
    destruct (step_keeps_balance_stuck l x x' A1 A2 Hstep) as (B1 & B2 & B3 & B4 & B5).
    repeat split; congruence.
  - unfold perform_update_finish, set_task, pending in *. cbn.
    rewrite (count_insert _ _ _ _ _ Hk). cbn.
    repeat split; try reflexivity; try assumption. lia.
Qed.

(** *** A flush that fails leaves its flag set *)

Lemma step_keeps_forward_stuck (l : label) (s s' : State) :
  _fwd_update_scheduled s = true ->
  pending is_fwd_update s = 0 ->
  step cfg l s = Some s' ->
  _fwd_update_scheduled s' = true
  /\ pending is_fwd_update s' = 0
  /\ forward_channel (log s') = forward_channel (log s)
  /\ fee_revenue_channel (log s') = fee_revenue_channel (log s)
  /\ revenue_fetches (log s') = revenue_fetches (log s)
  /\ _fwd_successes s' =
       _fwd_successes s ++ (if ENABLE_FWD_NOTIFICATIONS cfg
                            then forwards_delivered [l] else []).
Proof.
  intros Hflag Hnone Hstep. unfold pending in *. step_paths Hstep;
    try congruence.
  all: try match goal with
       | H : tasks _ !! _ = Some ?t |- _ =>
           pose proof (count_lookup is_fwd_update _ _ _ H) as Hc;
           cbn in Hc; lia
       end.
  all: records; count_tasks; cbn in *.
  all: try match goal with
       | H0 : negb ?b = true, Hf : ?b = true |- _ =>
           rewrite Hf in H0; discriminate H0
       end.
  all: repeat split; try reflexivity; try assumption; try lia.
  all: destruct (ENABLE_FWD_NOTIFICATIONS cfg); cbn; rewrite ?app_nil_r;
    try reflexivity; try congruence.
Qed.

Lemma run_keeps_forward_stuck (ls : list label) (s s' : State) :
  _fwd_update_scheduled s = true ->
  pending is_fwd_update s = 0 ->
  run cfg ls s = Some s' ->
  _fwd_update_scheduled s' = true
  /\ pending is_fwd_update s' = 0
  /\ forward_channel (log s') = forward_channel (log s)
  /\ fee_revenue_channel (log s') = fee_revenue_channel (log s)
  /\ revenue_fetches (log s') = revenue_fetches (log s)
  /\ _fwd_successes s' =
       _fwd_successes s ++ (if ENABLE_FWD_NOTIFICATIONS cfg
                            then forwards_delivered ls else []).
Proof.
  revert s. induction ls as [|l ls IH]; intros s Hflag Hnone Hrun; cbn [run] in Hrun.
  - injection Hrun as <-. repeat split; try assumption.
    destruct (ENABLE_FWD_NOTIFICATIONS cfg); cbn; rewrite app_nil_r; reflexivity.
  - destruct (step cfg l s) as [s1|] eqn:H1; [|discriminate].
    destruct (step_keeps_forward_stuck l s s1 Hflag Hnone H1)
      as (A1 & A2 & A3 & A4 & A5 & A6).
    destruct (IH s1 A1 A2 Hrun) as (B1 & B2 & B3 & B4 & B5 & B6).
    repeat split; try congruence.
    rewrite B6, A6, <- app_assoc. f_equal.
    change (l :: ls) with ([l] ++ ls). unfold forwards_delivered.
    rewrite omap_app. destruct (ENABLE_FWD_NOTIFICATIONS cfg); reflexivity.
Qed.

(** When [get_fee_revenue] raises in the only flush that is under way,
    [_fwd_update_scheduled] is left set with no task behind it: whatever
    is scheduled afterwards, no forward event creates a flush task any
    more, no batch and no fee revenue is broadcast again, and with
    forward notifications on the buffer keeps every event delivered from
    then on. *)
Theorem forward_flush_stops_after_failure
    (s : State) (k : nat) (e : exn) :
  tasks s !! k = Some fwd_update_fetching ->
  pending is_fwd_update s = 1 ->
  _fwd_update_scheduled s = true ->
  exists s1,
    step cfg (Reply k (fee_revenue (Raises e))) s = Some s1
    /\ forall (ls : list label) (s' : State),
         run cfg ls s1 = Some s' ->
         _fwd_update_scheduled s' = true
         /\ pending is_fwd_update s' = 0
         /\ forward_channel (log s') = forward_channel (log s)
         /\ fee_revenue_channel (log s') = fee_revenue_channel (log s)
         /\ revenue_fetches (log s') = revenue_fetches (log s)
         /\ _fwd_successes s' =
              _fwd_successes s ++ (if ENABLE_FWD_NOTIFICATIONS cfg
                                   then forwards_delivered ls else []).
Proof.
  intros Hk Hone Hflag. cbn [step]. rewrite Hk.
  eexists; split; [reflexivity|].
  intros ls s' Hrun.
  apply run_keeps_forward_stuck in Hrun.
  - exact Hrun.
  - exact Hflag.
  - unfold fwd_update_finish, set_task, pending in *. cbn.
    rewrite (count_insert _ _ _ _ _ Hk). cbn. lia.
Qed.

(** *** Events that arrive while a flush awaits the revenue *)

(** With no flush task about and no forward event delivered, nothing
    moves on the forward side. *)
Lemma step_keeps_forward_idle (l : label) (s s' : State) :
  pending is_fwd_update s = 0 ->
  forwards_delivered [l] = [] ->
  step cfg l s = Some s' ->
  pending is_fwd_update s' = 0
  /\ _fwd_successes s' = _fwd_successes s
  /\ _fwd_update_scheduled s' = _fwd_update_scheduled s
  /\ forward_channel (log s') = forward_channel (log s).
Proof.
  intros Hnone Hl Hstep. unfold pending in *. step_paths Hstep;
    try discriminate Hl.
  all: try match goal with
       | H : tasks _ !! _ = Some ?t |- _ =>
           pose proof (count_lookup is_fwd_update _ _ _ H) as Hc;
           cbn in Hc; lia
       end.
  all: records; count_tasks; cbn in *.
  all: repeat split; try reflexivity; try assumption; try lia.
Qed.

Lemma run_keeps_forward_idle (ls : list label) (s s' : State) :
  pending is_fwd_update s = 0 ->
  forwards_delivered ls = [] ->
  run cfg ls s = Some s' ->
  pending is_fwd_update s' = 0
  /\ _fwd_successes s' = _fwd_successes s
  /\ _fwd_update_scheduled s' = _fwd_update_scheduled s
  /\ forward_channel (log s') = forward_channel (log s).
Proof.
  revert s. induction ls as [|l ls IH]; intros s Hnone Hls Hrun; cbn [run] in Hrun.
  - injection Hrun as <-. tauto.
  - destruct (step cfg l s) as [s1|] eqn:H1; [|discriminate].
    change (l :: ls) with ([l] ++ ls) in Hls. unfold forwards_delivered in Hls.
    rewrite omap_app in Hls. apply app_eq_nil in Hls as [Hl Hls].
    destruct (step_keeps_forward_idle l s s1 Hnone Hl H1) as (A1 & A2 & A3 & A4).
    destruct (IH s1 A1 Hls Hrun) as (B1 & B2 & B3 & B4).
    repeat split; congruence.
Qed.

(** A forward event delivered while the only flush task awaits the fee
    revenue (between lines 251 and 254) finds the flag still set: it is
    appended to the buffer and no task is created for it.  When the
    revenue has come back the flag is clear, no flush task is left and
    the event is still in the buffer; it stays there, unbroadcast, for as
    long as no further forward event is delivered. *)
Theorem late_event_waits_for_the_next (s : State) (k : nat)
    (i : ForwardSuccessEvent) (rev : FeeRevenue) :
  ENABLE_FWD_NOTIFICATIONS cfg = true ->
  forward_task s = Some listening ->
  tasks s !! k = Some fwd_update_fetching ->
  _fwd_update_scheduled s = true ->
  pending is_fwd_update s = 1 ->
  exists s1,
    run cfg [ForwardNext i; Reply k (fee_revenue (Returns rev))] s = Some s1
    /\ _fwd_successes s1 = _fwd_successes s ++ [i]
    /\ _fwd_update_scheduled s1 = false
    /\ pending is_fwd_update s1 = 0
    /\ forward_channel (log s1) = forward_channel (log s)
    /\ forall (ls : list label) (s' : State),
         forwards_delivered ls = [] ->
         run cfg ls s1 = Some s' ->
         _fwd_successes s' = _fwd_successes s ++ [i]
         /\ pending is_fwd_update s' = 0
         /\ forward_channel (log s') = forward_channel (log s).
Proof.
  intros Hon Hl Hk Hflag Hone.
  cbn [run step]. rewrite Hl. unfold forward_body. rewrite Hon. cbn.
  rewrite Hflag. cbn. rewrite Hk.
  eexists; split; [reflexivity|].
  assert (pending is_fwd_update
            (fwd_update_finish k (Returns rev)
               (set_fwd_successes (_fwd_successes s ++ [i]) s)) = 0) as Hzero.
  { unfold fwd_update_finish, set_task, broadcast_sse_msg, pending in *. cbn.
    rewrite (count_insert _ _ _ _ _ Hk). cbn. lia. }
  assert (forward_channel
            (log (fwd_update_finish k (Returns rev)
                    (set_fwd_successes (_fwd_successes s ++ [i]) s)))
          = forward_channel (log s)) as Hchan.
  { unfold fwd_update_finish, set_task, broadcast_sse_msg. records. reflexivity. }
  split; [reflexivity|]. split; [reflexivity|]. split; [exact Hzero|].
  split; [exact Hchan|].
  intros ls s' Hls Hrun.
  destruct (run_keeps_forward_idle ls _ s' Hzero Hls Hrun) as (B1 & B2 & _ & B4).
  split; [exact B2|]. split; [exact B1|]. congruence.
Qed.

(** *** Signals during the sleep of a refresh *)

(** While the flag is set, the turns that only mark the balance dirty
    change neither tasks, clock, cache nor what was fetched and
    broadcast for the balance. *)
Lemma signals_absorbed (ls : list label) (s : State) :
  _wallet_balance_update_scheduled s = true ->
  invoice_task s = Some listening ->
  Forall (fun l => is_signal l = true) ls ->
  exists s',
    run cfg ls s = Some s'
    /\ tasks s' = tasks s
    /\ now s' = now s
    /\ _wallet_balance_update_scheduled s' = true
    /\ invoice_task s' = Some listening
    /\ _CACHE_wallet_balance s' = _CACHE_wallet_balance s
    /\ wallet_balance_channel (log s') = wallet_balance_channel (log s)
    /\ balance_fetches (log s') = balance_fetches (log s)
    /\ dirty_marks (log s') = dirty_marks (log s) + length ls.
Proof.
  revert s. induction ls as [|l ls IH]; intros s Hflag Hinv Hall.
  - exists s. cbn. rewrite Nat.add_0_r. repeat split; assumption.
  - apply Forall_cons in Hall as [Hl Hall].
    assert (exists s1, step cfg l s = Some s1
              /\ tasks s1 = tasks s /\ now s1 = now s
              /\ _wallet_balance_update_scheduled s1 = true
              /\ invoice_task s1 = Some listening
              /\ _CACHE_wallet_balance s1 = _CACHE_wallet_balance s
              /\ wallet_balance_channel (log s1) = wallet_balance_channel (log s)
              /\ balance_fetches (log s1) = balance_fetches (log s)
              /\ dirty_marks (log s1) = dirty_marks (log s) + 1)
      as (s1 & H1 & A1 & A2 & A3 & A4 & A5 & A6 & A7 & A8).
    { destruct l; try discriminate Hl; cbn [step]; rewrite ?Hinv;
        (eexists; split; [reflexivity|]);
        unfold invoice_body, _schedule_wallet_balance_update, broadcast_sse_msg;
        cbn; rewrite Hflag; records; repeat split; try reflexivity;
        try assumption; lia. }
    destruct (IH s1 A3 A4 Hall) as (s' & Hrun & B1 & B2 & B3 & B4 & B5 & B6 & B7 & B8).
    exists s'. cbn [run]. rewrite H1. split; [exact Hrun|].
    cbn [length]. repeat split; try congruence. lia.
Qed.

(** One refresh serves every signal that arrives while it sleeps: when
    the first signal finds the flag clear and its task starts in the
    same pass of the loop, any number of further signals create no task;
    when the sleep is over the balance is fetched once, and it is
    broadcast exactly when it differs from the cached one, which it then
    replaces. *)
Theorem refresh_debounces_signals (s0 : State) (first : label)
    (signals : list label) (tw : Q) (wb : WalletBalance) :
  _wallet_balance_update_scheduled s0 = false ->
  invoice_task s0 = Some listening ->
  is_signal first = true ->
  Forall (fun l => is_signal l = true) signals ->
  due (deadline (now s0) float_1_1) tw = true ->
  (now s0 <= tw)%Q ->
  exists s',
    run cfg (debounce_schedule (length (tasks s0)) first signals tw wb) s0 = Some s'
    /\ balance_fetches (log s') = balance_fetches (log s0) + 1
    /\ wallet_balance_channel (log s')
       = wallet_balance_channel (log s0)
         ++ (if decide (_CACHE_wallet_balance s0 = Some wb) then [] else [wb])
    /\ _CACHE_wallet_balance s' = Some wb
    /\ _wallet_balance_update_scheduled s' = false
    /\ tasks s' = tasks s0 ++ [task_finished]
    /\ dirty_marks (log s') = dirty_marks (log s0) + 1 + length signals.
Proof.
  intros Hflag Hinv Hfirst Hall Hdue Hnow.
  assert (exists s1, run cfg [first; Start (length (tasks s0))] s0 = Some s1
            /\ tasks s1 = tasks s0
                          ++ [perform_update_sleeping (deadline (now s0) float_1_1)]
            /\ now s1 = now s0
            /\ _wallet_balance_update_scheduled s1 = true
            /\ invoice_task s1 = Some listening
            /\ _CACHE_wallet_balance s1 = _CACHE_wallet_balance s0
            /\ wallet_balance_channel (log s1) = wallet_balance_channel (log s0)
            /\ balance_fetches (log s1) = balance_fetches (log s0)
            /\ dirty_marks (log s1) = dirty_marks (log s0) + 1)
    as (s1 & Hrun1 & A1 & A2 & A3 & A4 & A5 & A6 & A7 & A8).
  { destruct first; try discriminate Hfirst; cbn [run step]; rewrite ?Hinv;
      unfold invoice_body, _schedule_wallet_balance_update, broadcast_sse_msg,
        create_task; cbn; rewrite Hflag; cbn; rewrite lookup_at_length;
      (eexists; split; [reflexivity|]);
      unfold perform_update_start, set_task; records; rewrite insert_at_length;
      repeat split; try reflexivity; try assumption; lia. }
  destruct (signals_absorbed signals s1 A3 A4 Hall)
    as (s2 & Hrun2 & B1 & B2 & B3 & B4 & B5 & B6 & B7 & B8).
  assert (tasks s2 !! length (tasks s0)
          = Some (perform_update_sleeping (deadline (now s0) float_1_1))) as Hk.
  { rewrite B1, A1. apply lookup_at_length. }
  unfold debounce_schedule. rewrite run_app, Hrun1, run_app, Hrun2.
  cbn [run step]. rewrite B2, A2, (proj2 (Qle_bool_iff _ _) Hnow).
  cbn [tasks set_now now]. rewrite Hk, Hdue.
  unfold perform_update_wake, set_task. cbn. rewrite B1, A1, insert_at_length,
    lookup_at_length.
  eexists; split; [reflexivity|].
  unfold perform_update_finish, broadcast_sse_msg, set_task. cbn.
  rewrite B5, A5.
  destruct (decide (_CACHE_wallet_balance s0 = Some wb)) as [E|E].
  - rewrite bool_decide_eq_false_2 by (intros ?; contradiction).
    records. rewrite insert_at_length, ?app_nil_r.
    repeat split; try reflexivity; try congruence; lia.
  - rewrite bool_decide_eq_true_2 by assumption.
    records. rewrite insert_at_length.
    repeat split; try reflexivity; try congruence; lia.
Qed.

(** *** The lite cache follows the full cache *)

Lemma step_keeps_lite_following (l : label) (s s' : State) :
  (forall il, info_task s = Some il ->
     last_info_lite il = from_lninfo <$> last_info il)
  /\ length (ln_info_lite_channel (log s)) <= length (ln_info_channel (log s)) ->
  step cfg l s = Some s' ->
  (forall il, info_task s' = Some il ->
     last_info_lite il = from_lninfo <$> last_info il)
  /\ length (ln_info_lite_channel (log s')) <= length (ln_info_channel (log s')).
Proof.
  intros [Hil Hlen] Hstep. step_paths Hstep; decided.
  all: try (specialize (Hil _ eq_refl)).
  all: repeat match goal with
       | H : ~ (_ <> _) |- _ => apply dec_stable in H
       end.
  all: channels; rewrite ?length_app; cbn.
  all: split; [try assumption | try lia].
  all: try (intros ? [= <-]; cbn; first [reflexivity | assumption | congruence]).
  all: try match goal with
       | H1 : last_info ?i = Some ?a,
         H2 : last_info_lite ?i <> Some (from_lninfo ?a) |- _ =>
           exfalso; apply H2; rewrite Hil, H1; reflexivity
       end.
Qed.

(** In every state the loop reaches from the registered state the lite
    cache is the projection of the full cache, so a lite broadcast never
    comes without a full broadcast in the same poll: the lite channel
    never carries more values than the full channel, and a poll that
    broadcasts nothing on the full channel broadcasts nothing at all. *)
Theorem lite_follows_full (ls : list label) (s : State) :
  run cfg ls registered = Some s ->
  (forall il, info_task s = Some il ->
     last_info_lite il = from_lninfo <$> last_info il)
  /\ length (ln_info_lite_channel (log s)) <= length (ln_info_channel (log s))
  /\ (forall (info : LnInfo) (s' : State),
        step cfg (InfoReply (Returns info)) s = Some s' ->
        ln_info_channel (log s') = ln_info_channel (log s) ->
        log s' = log s).
Proof.
  intros Hrun.
  assert ((forall il, info_task s = Some il ->
             last_info_lite il = from_lninfo <$> last_info il)
          /\ length (ln_info_lite_channel (log s)) <= length (ln_info_channel (log s)))
    as [Hil Hlen].
  { refine (run_invariant _ step_keeps_lite_following ls registered s _ Hrun).
    split; [intros il [= <-]; reflexivity|].
    unfold ln_info_lite_channel, ln_info_channel. cbn. lia. }
  split; [exact Hil|]. split; [exact Hlen|].
  intros info s' Hstep Hsame.
  assert (exists il, info_task s = Some il /\ info_at il = info_fetching)
    as (il & Hs & Hat).
  { cbn [step] in Hstep. destruct (info_task s) as [il|]; [|discriminate].
    exists il. split; [reflexivity|]. destruct (info_at il); try discriminate.
    reflexivity. }
  destruct (info_reply_effects s il info Hs Hat) as (s1 & H1 & Hlog & _).
  rewrite Hstep in H1. injection H1 as <-.
  destruct (decide (last_info il = Some info)) as [E|E].
  - rewrite Hlog. rewrite decide_True; [rewrite app_nil_r; reflexivity|].
    rewrite (Hil il Hs), E. reflexivity.
  - exfalso. rewrite Hlog in Hsame.
    destruct (decide (last_info_lite il = Some (from_lninfo info)));
      rewrite ?app_nil_r in Hsame;
      repeat rewrite ln_info_channel_snoc in Hsame;
      change ([Broadcast (LN_INFO info); Broadcast (LN_INFO_LITE (from_lninfo info))])
        with ([Broadcast (LN_INFO info)] ++ [Broadcast (LN_INFO_LITE (from_lninfo info))])
        in Hsame;
      rewrite ?app_assoc, ?ln_info_channel_snoc in Hsame; cbn in Hsame;
      rewrite ?app_nil_r in Hsame;
      apply (f_equal length) in Hsame; rewrite length_app in Hsame;
      cbn in Hsame; lia.
Qed.

(** *** A stream that has ended *)

Lemma step_after_invoice_stream (l : label) (s s' : State) :
  invoice_task s <> Some listening ->
  step cfg l s = Some s' ->
  invoice_task s' = invoice_task s
  /\ invoice_listener_effects (log s') = invoice_listener_effects (log s)
  /\ invoice_channel (log s') = invoice_channel (log s)
  /\ invoices_delivered [l] = [].
Proof.
  intros Hend Hstep. step_paths Hstep; try congruence.
  all: cbn; rewrite ?invoice_listener_effects_snoc, ?invoice_channel_snoc; cbn;
    rewrite ?app_nil_r; repeat split; reflexivity.
Qed.

Lemma step_after_forward_stream (l : label) (s s' : State) :
  forward_task s <> Some listening ->
  step cfg l s = Some s' ->
  forward_task s' = forward_task s /\ forwards_delivered [l] = [].
Proof.
  intros Hend Hstep. step_paths Hstep; try congruence.
  all: cbn; split; reflexivity.
Qed.

(** Neither listener comes back once its [async for] is over.  After
    the invoice stream has ended or raised, whatever is scheduled, no
    invoice is relayed and the relay marks the balance dirty no more;
    after the forward stream has ended or raised no forward event is
    taken in, so no flush cycle begins beyond those already waiting. *)
Theorem ended_stream_stays_silent (ls : list label) (s s' : State) :
  run cfg ls s = Some s' ->
  (invoice_task s <> Some listening ->
     invoice_task s' = invoice_task s
     /\ invoice_listener_effects (log s') = invoice_listener_effects (log s)
     /\ invoice_channel (log s') = invoice_channel (log s)
     /\ invoices_delivered ls = [])
  /\ (forward_task s <> Some listening ->
        forward_task s' = forward_task s
        /\ forwards_delivered ls = []
        /\ revenue_fetches (log s') + pending is_fwd_waiting s'
           <= revenue_fetches (log s) + pending is_fwd_waiting s).
Proof.
  revert s. induction ls as [|l ls IH]; intros s Hrun; cbn [run] in Hrun.
  - injection Hrun as <-. split; intros _; repeat split; reflexivity || lia.
  - destruct (step cfg l s) as [s1|] eqn:H1; [|discriminate].
    destruct (IH s1 Hrun) as [IHi IHf]. split.
    + intros Hend.
      destruct (step_after_invoice_stream l s s1 Hend H1) as (A1 & A2 & A3 & A4).
      destruct IHi as (B1 & B2 & B3 & B4); [congruence|].
      change (l :: ls) with ([l] ++ ls). unfold invoices_delivered in *.
      rewrite omap_app, A4, B4. repeat split; congruence.
    + intros Hend.
      destruct (step_after_forward_stream l s s1 Hend H1) as (A1 & A2).
      destruct IHf as (B1 & B2 & B3); [congruence|].
      pose proof (step_revenue_fetch_bound l s s1 H1) as C.
      rewrite A2 in C. cbn in C.
      change (l :: ls) with ([l] ++ ls). unfold forwards_delivered in *.
      rewrite omap_app, A2, B2. repeat split; try congruence. lia.
Qed.

(** *** What the gated channels carry *)

Lemma step_channels_of_replies (l : label) (s s' : State) :
  caches_track_channels s /\ info_listener_fresh s ->
  step cfg l s = Some s' ->
  ln_info_channel (log s')
    = fold_left squash_step (infos_returned [l]) (ln_info_channel (log s))
  /\ ln_info_lite_channel (log s')
     = fold_left squash_step (from_lninfo <$> infos_returned [l])
         (ln_info_lite_channel (log s))
  /\ wallet_balance_channel (log s')
     = fold_left squash_step (balances_returned [l]) (wallet_balance_channel (log s))
  /\ fee_revenue_channel (log s')
     = fee_revenue_channel (log s) ++ revenues_returned [l].
Proof.
  intros ((Hc & Hi) & Hcr) Hstep. unfold info_listener_fresh in Hcr.
  step_paths Hstep; decided.
  all: try (specialize (Hi _ eq_refl); destruct Hi as [Hi1 Hi2]).
  all: repeat match goal with
       | H : ~ (_ <> _) |- _ => apply dec_stable in H
       end.
  all: records; unfold squash_step.
  all: repeat split; try reflexivity.
  all: try (rewrite decide_True by congruence; reflexivity).
  all: try (rewrite decide_False by congruence; reflexivity).
Qed.

Lemma run_channels_of_replies (ls : list label) (s s' : State) :
  (no_repeat (ln_info_channel (log s))
   /\ no_repeat (ln_info_lite_channel (log s))
   /\ no_repeat (wallet_balance_channel (log s)))
  /\ caches_track_channels s /\ info_listener_fresh s ->
  run cfg ls s = Some s' ->
  ln_info_channel (log s')
    = fold_left squash_step (infos_returned ls) (ln_info_channel (log s))
  /\ ln_info_lite_channel (log s')
     = fold_left squash_step (from_lninfo <$> infos_returned ls)
         (ln_info_lite_channel (log s))
  /\ wallet_balance_channel (log s')
     = fold_left squash_step (balances_returned ls) (wallet_balance_channel (log s))
  /\ fee_revenue_channel (log s')
     = fee_revenue_channel (log s) ++ revenues_returned ls.
Proof.
  revert s. induction ls as [|l ls IH]; intros s Hinv Hrun; cbn [run] in Hrun.
  - injection Hrun as <-. cbn. rewrite app_nil_r. repeat split; reflexivity.
  - destruct (step cfg l s) as [s1|] eqn:H1; [|discriminate].
    pose proof (step_keeps_channels_tracked l s s1 Hinv H1) as Hinv1.
    destruct (step_channels_of_replies l s s1 (proj2 Hinv) H1) as (A1 & A2 & A3 & A4).
    destruct (IH s1 Hinv1 Hrun) as (B1 & B2 & B3 & B4).
    change (l :: ls) with ([l] ++ ls).
    unfold infos_returned, balances_returned, revenues_returned in *.
    rewrite !omap_app, fmap_app, !fold_left_app, <- A1, <- A2, <- A3, app_assoc, <- A4.
    repeat split; assumption.
Qed.

(** After every schedule from the registered state, the full-info
    channel carries the snapshots the polls returned, in order, with
    every snapshot that repeats its predecessor left out; the lite
    channel carries their projections and the wallet-balance channel the
    fetched balances, thinned in the same way; and the fee-revenue
    channel carries every revenue that was returned, none left out. *)
Theorem channels_carry_the_replies (ls : list label) (s : State) :
  run cfg ls registered = Some s ->
  ln_info_channel (log s) = squash (infos_returned ls)
  /\ ln_info_lite_channel (log s) = squash (from_lninfo <$> infos_returned ls)
  /\ wallet_balance_channel (log s) = squash (balances_returned ls)
  /\ fee_revenue_channel (log s) = revenues_returned ls.
Proof.
  intros Hrun.
  exact (run_channels_of_replies ls registered s registered_channels_tracked Hrun).
Qed.

End Facts.

(** ** Concrete runs *)


(** C1.  Two forward events that the backend stream yields back to back
    both find [_fwd_update_scheduled] clear, because the flag is set by
    the task and not by the listener that creates it: two flush tasks
    sleep through the same window.  The first broadcasts the one batch
    with both events; the second finds the buffer empty, and fetches and
    broadcasts the fee revenue a second time. *)
Theorem burst_publishes_fee_revenue_twice :
  exists s : @State sample_models,
    run sample_settings burst_schedule registered = Some s
    /\ forward_channel (log s) = [["fwd-1"; "fwd-2"]%string]
    /\ fee_revenue_channel (log s) = [7%Z; 7%Z]
    /\ log s = [Broadcast (LN_FORWARD_SUCCESSES (M := sample_models) ["fwd-1"; "fwd-2"]%string);
                MarkDirty by_fwd_update; Called get_fee_revenue_impl;
                MarkDirty by_fwd_update; Called get_fee_revenue_impl;
                Broadcast (LN_FEE_REVENUE (M := sample_models) 7%Z); Broadcast (LN_FEE_REVENUE (M := sample_models) 7%Z)].
Proof.
  eexists. split; [vm_compute; reflexivity|].
  split; [vm_compute; reflexivity|].
  split; vm_compute; reflexivity.
Qed.

(** C2.  Two signals in one pass of the event loop both find
    [_wallet_balance_update_scheduled] clear and both create a task: two
    balance refreshes sleep at once under the one flag.  The forward
    flag lets two flush tasks through in the same way. *)
Theorem two_delayed_tasks_under_one_flag :
  (exists s : @State sample_models,
     run sample_settings double_dirty_schedule registered = Some s
     /\ pending is_perform_update s = 2
     /\ tasks s = [perform_update_sleeping (deadline 0 float_1_1);
                   perform_update_sleeping (deadline 0 float_1_1)])
  /\ (exists s : @State sample_models,
        run sample_settings burst_opening registered = Some s
        /\ pending is_fwd_update s = 2
        /\ tasks s = [fwd_update_sleeping (deadline 0 float_2_0);
                      fwd_update_sleeping (deadline 0 float_2_0)]).
Proof.
  split.
  - eexists. split; [vm_compute; reflexivity|].
    split; vm_compute; reflexivity.
  - eexists. split; [vm_compute; reflexivity|].
    split; vm_compute; reflexivity.
Qed.

(** Polls that return equal snapshots, and balance refreshes that fetch
    equal balances, are broadcast once. *)
Lemma suppressible_channels_never_repeat_witness :
  exists s : @State sample_models,
    run sample_settings sample_day registered = Some s
    /\ no_repeat (ln_info_channel (log s))
    /\ no_repeat (ln_info_lite_channel (log s))
    /\ no_repeat (wallet_balance_channel (log s))
    /\ caches_track_channels s.
Proof.
  eexists. split; [vm_compute; reflexivity|].
  apply (suppressible_channels_never_repeat sample_settings sample_day).
  vm_compute; reflexivity.
Defined.

(** A flush with one buffered event, the revenue coming back, and a
    forward event with notifications switched off. *)
Lemma flush_cycle_witness :
  (exists s',
     step sample_settings (Wake 0)
       (state_after sample_settings
          [ForwardNext (M := sample_models) "fwd-1"%string; Start 0; Tick 2]) = Some s'
     /\ log s' = [Broadcast (LN_FORWARD_SUCCESSES (M := sample_models) ["fwd-1"%string]);
                  MarkDirty by_fwd_update; Called get_fee_revenue_impl]
     /\ _fwd_successes s' = []
     /\ tasks s' !! 0 = Some fwd_update_fetching)
  /\ (exists s',
        step sample_settings (Reply 0 (fee_revenue (M := sample_models) (Returns 7%Z)))
          (state_after sample_settings
             [ForwardNext (M := sample_models) "fwd-1"%string; Start 0; Tick 2; Wake 0])
        = Some s'
        /\ log s' = [Broadcast (LN_FORWARD_SUCCESSES (M := sample_models) ["fwd-1"%string]);
                     MarkDirty by_fwd_update; Called get_fee_revenue_impl;
                     Broadcast (LN_FEE_REVENUE (M := sample_models) 7%Z)]
        /\ _fwd_update_scheduled s' = false)
  /\ (exists s',
        step quiet_settings (ForwardNext (M := sample_models) "fwd-1"%string) registered
        = Some s'
        /\ tasks s' = [fwd_update_created]
        /\ _fwd_successes s' = [])
  /\ (exists s : @State sample_models,
        run quiet_settings burst_schedule registered = Some s
        /\ _fwd_successes s = [] /\ forward_channel (log s) = []).
Proof.
  split; [|split; [|split]].
  - eapply (proj1 (flush_cycle (M := sample_models) sample_settings)).
    + vm_compute; reflexivity.
    + vm_compute; reflexivity.
  - apply (proj1 (proj2 (flush_cycle (M := sample_models) sample_settings))).
    vm_compute; reflexivity.
  - apply (proj1 (proj2 (proj2 (flush_cycle (M := sample_models) quiet_settings))
                    eq_refl)).
    + reflexivity.
    + reflexivity.
  - eexists. split; [vm_compute; reflexivity|].
    apply (proj2 (proj2 (proj2 (flush_cycle (M := sample_models) quiet_settings))
                    eq_refl) burst_schedule).
    vm_compute; reflexivity.
Defined.

(** C5, counterexample.  The second poll of the listener raises: the
    listener is left in the raised state, it cannot be resumed, and no
    schedule that lets the clock pass and then resumes it for a third
    poll can run. *)
Lemma poll_loop_stops_at_first_failure :
  (exists s : @State sample_models,
     run sample_settings failing_poll_schedule registered = Some s
     /\ option_map info_at (info_task s)
        = Some (info_raised (HTTPException 503 "backend unavailable"%string))
     /\ step sample_settings InfoResumes s = None
     /\ info_polls (log s) = 2)
  /\ ~ (exists s : @State sample_models,
          run sample_settings (failing_poll_schedule ++ [Tick 4%Q; InfoResumes])
            registered = Some s).
Proof.
  split.
  - eexists. split; [vm_compute; reflexivity|].
    split; [vm_compute; reflexivity|].
    split; vm_compute; reflexivity.
  - intros [s Hs]. vm_compute in Hs. discriminate Hs.
Qed.

(** The failing poll of [failing_poll_schedule], what follows it, and
    the poll before it that returned. *)
Lemma info_listener_ends_on_failure_witness :
  (exists s',
     step sample_settings
       (InfoReply (M := sample_models)
          (Raises (HTTPException 503 "backend unavailable"%string)))
       (state_after sample_settings [InfoResumes]) = Some s'
     /\ log s' = log (state_after (M := sample_models) sample_settings [InfoResumes])
     /\ info_task s' =
          info_listener_at (info_raised (HTTPException 503 "backend unavailable"%string))
            (last_info (info_listener_at_fetching (M := sample_models)))
            (last_info_lite (info_listener_at_fetching (M := sample_models))))
  /\ (exists s' : @State sample_models,
        run sample_settings [Tick 4%Q; SendCoinsReturns]
          (state_after sample_settings failing_poll_schedule) = Some s'
        /\ info_task s' = Some raised_listener
        /\ step sample_settings InfoResumes s' = None
        /\ ln_info_channel (log s')
           = ln_info_channel (log (state_after sample_settings failing_poll_schedule))
        /\ ln_info_lite_channel (log s')
           = ln_info_lite_channel (log (state_after sample_settings failing_poll_schedule))
        /\ info_polls (log s')
           = info_polls (log (state_after sample_settings failing_poll_schedule)))
  /\ (exists s',
        step sample_settings (InfoReply (M := sample_models) (Returns snapshot_a))
          (state_after sample_settings [InfoResumes]) = Some s'
        /\ info_task s' =
             info_listener_at
               (info_sleeping
                  (deadline (now (state_after (M := sample_models) sample_settings
                                    [InfoResumes]))
                     (GATHER_INFO_INTERVALL sample_settings)))
               (Some snapshot_a) (Some (from_lninfo (Models := sample_models) snapshot_a))).
Proof.
  split; [|split].
  - apply (proj1 (info_listener_ends_on_failure (M := sample_models) sample_settings)
             (state_after sample_settings [InfoResumes])
             (info_listener_at_fetching (M := sample_models))).
    + reflexivity.
    + reflexivity.
  - eexists. split; [vm_compute; reflexivity|].
    apply (proj1 (proj2 (info_listener_ends_on_failure (M := sample_models)
                           sample_settings))
             [Tick 4%Q; SendCoinsReturns]
             (state_after sample_settings failing_poll_schedule) _ raised_listener
             (HTTPException 503 "backend unavailable"%string)).
    + reflexivity.
    + reflexivity.
    + vm_compute; reflexivity.
  - apply (proj2 (proj2 (info_listener_ends_on_failure (M := sample_models)
                           sample_settings))
             (state_after sample_settings [InfoResumes])
             (info_listener_at_fetching (M := sample_models))).
    + reflexivity.
    + reflexivity.
Defined.

(** A first poll; two polls in a row that differ in the block height
    only; and the listener of [lite_only_state]. *)
Lemma info_gates_independent_witness :
  (exists s',
     step sample_settings (InfoReply (M := sample_models) (Returns snapshot_a))
       (state_after sample_settings [InfoResumes]) = Some s'
     /\ log s' = log (state_after (M := sample_models) sample_settings [InfoResumes])
                 ++ (if decide (last_info (info_listener_at_fetching (M := sample_models))
                                = Some snapshot_a)
                     then [] else [Broadcast (LN_INFO (M := sample_models) snapshot_a)])
                 ++ (if decide (last_info_lite (info_listener_at_fetching (M := sample_models))
                                = Some (from_lninfo (Models := sample_models) snapshot_a))
                     then []
                     else [Broadcast (LN_INFO_LITE (M := sample_models)
                                        (from_lninfo (Models := sample_models) snapshot_a))]))
  /\ log (state_after (M := sample_models) sample_settings
            [InfoResumes; InfoReply (M := sample_models) (Returns snapshot_a);
             Tick 2%Q; InfoResumes;
             InfoReply (M := sample_models) (Returns snapshot_b)])
     = log (state_after (M := sample_models) sample_settings
              [InfoResumes; InfoReply (M := sample_models) (Returns snapshot_a);
               Tick 2%Q; InfoResumes])
       ++ [Broadcast (LN_INFO (M := sample_models) snapshot_b)]
  /\ (exists s',
        step sample_settings (InfoReply (M := sample_models) (Returns snapshot_a))
          lite_only_state = Some s'
        /\ log s' = log lite_only_state
                    ++ [Broadcast (LN_INFO_LITE (M := sample_models)
                                     (from_lninfo (Models := sample_models) snapshot_a))]).
Proof.
  split; [|split].
  - apply (proj1 (info_gates_independent (M := sample_models) sample_settings)
             (state_after sample_settings [InfoResumes])
             (info_listener_at_fetching (M := sample_models))).
    + reflexivity.
    + reflexivity.
  - apply (proj1 (proj2 (info_gates_independent (M := sample_models) sample_settings))
             (state_after sample_settings [InfoResumes]) _ _
             [Tick 2%Q; InfoResumes] snapshot_a snapshot_b).
    + vm_compute; reflexivity.
    + reflexivity.
    + vm_compute; reflexivity.
    + discriminate.
    + reflexivity.
  - apply (proj2 (proj2 (info_gates_independent (M := sample_models) sample_settings))
             lite_only_state
             lite_only_listener).
    + reflexivity.
    + reflexivity.
    + reflexivity.
    + discriminate.
Defined.

(** One invoice relayed from the registered state, and the invoices of
    [sample_day]. *)
Lemma invoice_relay_forwards_everything_witness :
  (exists s',
     step sample_settings (InvoiceNext (M := sample_models) "inv-1"%string) registered
     = Some s'
     /\ log s' = log (registered (M := sample_models))
                 ++ [Broadcast (LN_INVOICE_STATUS (M := sample_models) "inv-1"%string);
                     MarkDirty by_invoice_listener]
     /\ tasks s' = tasks (registered (M := sample_models))
                   ++ (if _wallet_balance_update_scheduled (registered (M := sample_models))
                       then [] else [perform_update_created]))
  /\ (exists s : @State sample_models,
        run sample_settings sample_day registered = Some s
        /\ invoice_listener_effects (log s) =
             flat_map (fun i => [Broadcast (LN_INVOICE_STATUS i);
                                 MarkDirty by_invoice_listener])
               (invoices_delivered sample_day)
        /\ invoice_channel (log s) = invoices_delivered sample_day).
Proof.
  split.
  - apply (proj1 (invoice_relay_forwards_everything (M := sample_models) sample_settings)).
    reflexivity.
  - eexists. split; [vm_compute; reflexivity|].
    apply (proj2 (invoice_relay_forwards_everything (M := sample_models) sample_settings)
             sample_day).
    vm_compute; reflexivity.
Defined.

(** ** The module import and the start-up guard, further *)

(** What the settings of a loaded module are made of. *)
Lemma loaded_settings (raspiblitz : string) (env : Environ) (cfg : Settings) :
  load_module raspiblitz env = Returns cfg ->
  env_platform env = Some (PLATFORM cfg)
  /\ env_ln_node env = Some (ln_node cfg)
  /\ ln cfg = import_ln raspiblitz (PLATFORM cfg) (ln_node cfg)
  /\ GATHER_INFO_INTERVALL cfg
     = default float_2_0 (env_gather_ln_info_interval env)
  /\ ENABLE_FWD_NOTIFICATIONS cfg
     = default false (env_sse_notify_forward_successes env)
  /\ FWD_GATHER_INTERVAL cfg
     = default float_2_0 (env_forwards_gather_interval env)
  /\ float_lt (FWD_GATHER_INTERVAL cfg) float_0_3 = false.
Proof.
  unfold load_module.
  destruct (env_platform env) as [p|]; cbn [config_required]; [|discriminate].
  destruct (env_ln_node env) as [n|]; cbn [config_required]; [|discriminate].
  destruct (float_lt (default float_2_0 (env_forwards_gather_interval env))
              float_0_3) eqn:Hlt; [discriminate|].
  intros [= <-]. cbn [PLATFORM ln_node ln GATHER_INFO_INTERVALL
                        ENABLE_FWD_NOTIFICATIONS FWD_GATHER_INTERVAL].
  repeat split; try reflexivity. exact Hlt.
Qed.


Section GuardFurther.

Context `{M : Models}.

(** Which implementation the loaded module has bound to [ln], and what
    registration does when it has bound none: for ["lnd_grpc"] and
    ["cln_grpc"] an implementation is bound, the Raspiblitz
    specialisation exactly on that platform; for every other [ln_node]
    none is, and unless [ln_node] is empty or ["none"] every
    registration then raises [NameError] without probing the backend and
    without starting a loop. *)
Theorem backend_binding (raspiblitz : string) (env : Environ) (cfg : Settings) :
  load_module raspiblitz env = Returns cfg ->
  (ln_node cfg = "lnd_grpc"%string -> ln cfg = Some lnd_grpc)
  /\ (ln_node cfg = "cln_grpc"%string ->
        ln cfg = Some (if decide (PLATFORM cfg = raspiblitz)
                       then cln_grpc_blitz else cln_grpc))
  /\ (ln_node cfg <> "lnd_grpc"%string -> ln_node cfg <> "cln_grpc"%string ->
        ln cfg = None
        /\ (ln_node cfg <> ""%string -> ln_node cfg <> "none"%string ->
            forall probe : outcome LnInfo,
              register_lightning_listener cfg probe
              = (Raises (NameError "ln"%string), []))).
Proof.
  intros Hload.
  destruct (loaded_settings raspiblitz env cfg Hload) as (_ & _ & Hln & _).
  unfold import_ln in Hln. split; [|split].
  - intros E. rewrite Hln, E. reflexivity.
  - intros E. rewrite Hln, E.
    destruct (decide (PLATFORM cfg = raspiblitz)); reflexivity.
  - intros N1 N2.
    assert (ln cfg = None) as Hnone.
    { rewrite Hln. rewrite decide_False by exact N1.
      rewrite decide_False by exact N2. reflexivity. }
    split; [exact Hnone|].
    intros N3 N4 probe. unfold register_lightning_listener.
    rewrite (bool_decide_eq_false_2 _ N3), (bool_decide_eq_false_2 _ N4).
    cbn [orb]. rewrite Hnone. reflexivity.
Qed.

(** Registration never lets a [NotImplementedError] through to its
    caller, whatever the settings and the probe; it hands the event loop
    either nothing or the three listeners, info first, and the latter
    only when the probe returned; and a [NotImplementedError] with
    arguments from the probe reaches the caller as the 501
    [HTTPException] whose detail is the first argument. *)
Theorem register_outcomes (cfg : Settings) (probe : outcome LnInfo) :
  (forall args : list string,
     fst (register_lightning_listener cfg probe) <> Raises (NotImplementedError args))
  /\ (snd (register_lightning_listener cfg probe) = []
      \/ (register_lightning_listener cfg probe
          = (Returns tt, [_handle_info_listener; _handle_invoice_listener;
                          _handle_forward_event_listener])
          /\ exists info, probe = Returns info))
  /\ (forall (a : string) (rest : list string),
        ln_node cfg <> ""%string -> ln_node cfg <> "none"%string ->
        is_Some (ln cfg) ->
        probe = Raises (NotImplementedError (a :: rest)) ->
        register_lightning_listener cfg probe
        = (Raises (HTTPException HTTP_501_NOT_IMPLEMENTED a), [])).
Proof.
  split; [|split].
  - intros args. unfold register_lightning_listener.
    destruct (bool_decide (ln_node cfg = ""%string)
              || bool_decide (ln_node cfg = "none"%string)); [discriminate|].
    destruct (ln cfg); [|discriminate].
    destruct probe as [info|e]; [discriminate|].
    destruct e as [| | | | |a| |]; try discriminate.
    destruct a; discriminate.
  - apply register_starts_all_or_none.
  - intros a rest N1 N2 [impl Himpl] ->. unfold register_lightning_listener.
    rewrite (bool_decide_eq_false_2 _ N1), (bool_decide_eq_false_2 _ N2).
    cbn [orb]. rewrite Himpl. reflexivity.
Qed.

End GuardFurther.

(** ** Further concrete runs *)

(** The burst of two forward events: both are in the one batch. *)
Lemma forward_events_conserved_witness :
  exists s : @State sample_models,
    run sample_settings burst_schedule registered = Some s
    /\ concat (forward_channel (log s)) ++ _fwd_successes s
       = forwards_delivered burst_schedule
    /\ Forall (fun b => b <> []) (forward_channel (log s)).
Proof.
  eexists. split; [vm_compute; reflexivity|].
  apply (forward_events_conserved sample_settings burst_schedule).
  - reflexivity.
  - vm_compute; reflexivity.
Defined.

(** In the burst, two events cause two revenue fetches and two signals,
    none of which has led to a balance fetch yet. *)
Lemma fetches_have_causes_witness :
  exists s : @State sample_models,
    run sample_settings burst_schedule registered = Some s
    /\ balance_fetches (log s) + pending is_perform_waiting s <= dirty_marks (log s)
    /\ revenue_fetches (log s) + pending is_fwd_waiting s
       <= length (forwards_delivered burst_schedule).
Proof.
  eexists. split; [vm_compute; reflexivity|].
  apply (fetches_have_causes sample_settings burst_schedule).
  vm_compute; reflexivity.
Defined.

(** A second forward event while the flush for the first awaits the
    revenue: it is still in the buffer after a payment four seconds
    later. *)
Lemma late_event_waits_for_the_next_witness :
  exists s1 s' : @State sample_models,
    run sample_settings
      [ForwardNext (M := sample_models) "fwd-2"%string;
       Reply 0 (fee_revenue (M := sample_models) (Returns sample_revenue))]
      (state_after sample_settings flush_fetching_schedule) = Some s1
    /\ _fwd_update_scheduled s1 = false
    /\ pending is_fwd_update s1 = 0
    /\ run sample_settings no_forward_schedule s1 = Some s'
    /\ _fwd_successes s'
       = _fwd_successes (state_after sample_settings flush_fetching_schedule)
         ++ ["fwd-2"%string]
    /\ pending is_fwd_update s' = 0
    /\ forward_channel (log s')
       = forward_channel (log (state_after sample_settings flush_fetching_schedule)).
Proof.
  destruct (late_event_waits_for_the_next (M := sample_models) sample_settings
              (state_after sample_settings flush_fetching_schedule) 0
              "fwd-2"%string sample_revenue)
    as (s1 & R & _ & A2 & A3 & _ & Hall);
    try (vm_compute; reflexivity).
  exists s1.
  destruct (run sample_settings no_forward_schedule s1) as [s'|] eqn:R2.
  - exists s'. destruct (Hall no_forward_schedule s' eq_refl R2) as (B1 & B2 & B3).
    split; [exact R|]. split; [exact A2|]. split; [exact A3|].
    split; [reflexivity|]. split; [exact B1|]. split; [exact B2 | exact B3].
  - exfalso.
    assert (run sample_settings
              ([ForwardNext (M := sample_models) "fwd-2"%string;
                Reply 0 (fee_revenue (M := sample_models) (Returns sample_revenue))]
               ++ no_forward_schedule)
              (state_after sample_settings flush_fetching_schedule) = None) as E.
    { rewrite run_app, R. exact R2. }
    vm_compute in E. discriminate E.
Defined.

(** The revenue fetch of the flush for "fwd-1" raises: two further
    events are buffered and nothing is flushed. *)
Lemma forward_flush_stops_after_failure_witness :
  exists s1 s' : @State sample_models,
    step sample_settings
      (Reply 0 (fee_revenue (M := sample_models) (Raises (BackendError "unavailable"%string))))
      (state_after sample_settings flush_fetching_schedule) = Some s1
    /\ run sample_settings after_failed_flush s1 = Some s'
    /\ _fwd_update_scheduled s' = true
    /\ pending is_fwd_update s' = 0
    /\ forward_channel (log s')
       = forward_channel (log (state_after sample_settings flush_fetching_schedule))
    /\ fee_revenue_channel (log s')
       = fee_revenue_channel (log (state_after sample_settings flush_fetching_schedule))
    /\ revenue_fetches (log s')
       = revenue_fetches (log (state_after sample_settings flush_fetching_schedule))
    /\ _fwd_successes s'
       = _fwd_successes (state_after sample_settings flush_fetching_schedule)
         ++ (if ENABLE_FWD_NOTIFICATIONS sample_settings
             then forwards_delivered after_failed_flush else []).
Proof.
  destruct (forward_flush_stops_after_failure (M := sample_models) sample_settings
              (state_after sample_settings flush_fetching_schedule) 0
              (BackendError "unavailable"%string))
    as (s1 & R & Hall);
    try (vm_compute; reflexivity).
  exists s1.
  destruct (run sample_settings after_failed_flush s1) as [s'|] eqn:R2.
  - exists s'. split; [exact R|]. split; [reflexivity|]. exact (Hall _ _ R2).
  - exfalso.
    assert (run sample_settings
              (Reply 0 (fee_revenue (M := sample_models)
                          (Raises (BackendError "unavailable"%string)))
               :: after_failed_flush)
              (state_after sample_settings flush_fetching_schedule) = None) as E.
    { cbn [run]. rewrite R. exact R2. }
    vm_compute in E. discriminate E.
Defined.

(** The balance fetch after a payment raises: an invoice and a second
    payment later, no refresh has been created. *)
Lemma balance_refresh_stops_after_failure_witness :
  exists s1 s' : @State sample_models,
    step sample_settings
      (Reply 0 (wallet_balance (M := sample_models)
                  (Raises (BackendError "unavailable"%string))))
      (state_after sample_settings refresh_fetching_schedule) = Some s1
    /\ run sample_settings after_failed_refresh s1 = Some s'
    /\ _wallet_balance_update_scheduled s' = true
    /\ pending is_perform_update s' = 0
    /\ wallet_balance_channel (log s')
       = wallet_balance_channel
           (log (state_after sample_settings refresh_fetching_schedule))
    /\ balance_fetches (log s')
       = balance_fetches (log (state_after sample_settings refresh_fetching_schedule))
    /\ _CACHE_wallet_balance s'
       = _CACHE_wallet_balance (state_after sample_settings refresh_fetching_schedule).
Proof.
  destruct (balance_refresh_stops_after_failure (M := sample_models) sample_settings
              (state_after sample_settings refresh_fetching_schedule) 0
              (BackendError "unavailable"%string))
    as (s1 & R & Hall);
    try (vm_compute; reflexivity).
  exists s1.
  destruct (run sample_settings after_failed_refresh s1) as [s'|] eqn:R2.
  - exists s'. split; [exact R|]. split; [reflexivity|]. exact (Hall _ _ R2).
  - exfalso.
    assert (run sample_settings
              (Reply 0 (wallet_balance (M := sample_models)
                          (Raises (BackendError "unavailable"%string)))
               :: after_failed_refresh)
              (state_after sample_settings refresh_fetching_schedule) = None) as E.
    { cbn [run]. rewrite R. exact R2. }
    vm_compute in E. discriminate E.
Defined.

(** A payment, then two invoices and another payment within the sleep
    of the refresh: one fetch, and the balance is broadcast because
    nothing was cached. *)
Lemma refresh_debounces_signals_witness :
  exists s' : @State sample_models,
    run sample_settings
      (debounce_schedule (length (tasks (registered (M := sample_models))))
         SendCoinsReturns sample_signals 2%Q sample_balance)
      registered = Some s'
    /\ balance_fetches (log s') = balance_fetches (log (registered (M := sample_models))) + 1
    /\ wallet_balance_channel (log s')
       = wallet_balance_channel (log (registered (M := sample_models)))
         ++ (if decide (_CACHE_wallet_balance (registered (M := sample_models))
                        = Some sample_balance)
             then [] else [sample_balance])
    /\ _CACHE_wallet_balance s' = Some sample_balance
    /\ _wallet_balance_update_scheduled s' = false
    /\ tasks s' = tasks (registered (M := sample_models)) ++ [task_finished]
    /\ dirty_marks (log s')
       = dirty_marks (log (registered (M := sample_models))) + 1 + length sample_signals.
Proof.
  apply (refresh_debounces_signals (M := sample_models) sample_settings registered
           SendCoinsReturns sample_signals 2%Q sample_balance).
  - reflexivity.
  - reflexivity.
  - reflexivity.
  - repeat constructor.
  - vm_compute; reflexivity.
  - vm_compute; discriminate.
Defined.

(** After [sample_day] the lite cache is the projection of the full
    cache, and a poll that returns the cached snapshot is silent. *)
Lemma lite_follows_full_witness :
  exists s s' : @State sample_models,
    run sample_settings sample_day_polling registered = Some s
    /\ (forall il, info_task s = Some il ->
          last_info_lite il = from_lninfo <$> last_info il)
    /\ length (ln_info_lite_channel (log s)) <= length (ln_info_channel (log s))
    /\ step sample_settings (InfoReply (M := sample_models) (Returns snapshot_b)) s
       = Some s'
    /\ log s' = log s.
Proof.
  eexists. eexists. split; [vm_compute; reflexivity|].
  match goal with
  | |- context [info_task ?s] =>
      destruct (lite_follows_full sample_settings sample_day_polling s)
        as (A & B & C); [vm_compute; reflexivity|]
  end.
  split; [exact A|]. split; [exact B|].
  split; [vm_compute; reflexivity|].
  apply (C snapshot_b); vm_compute; reflexivity.
Defined.


(** An lnd node, a c-lightning node on a Raspiblitz, and a node the
    module does not know. *)
Lemma backend_binding_witness :
  ln sample_settings = Some lnd_grpc
  /\ ln cln_blitz_settings
     = Some (if decide (PLATFORM cln_blitz_settings = "raspiblitz"%string)
             then cln_grpc_blitz else cln_grpc)
  /\ ln unknown_node_settings = None
  /\ (forall probe : outcome (@LnInfo sample_models),
        register_lightning_listener unknown_node_settings probe
        = (Raises (NameError "ln"%string), [])).
Proof.
  split; [|split].
  - apply (proj1 (backend_binding (M := sample_models) "raspiblitz"%string
                    sample_environ sample_settings ltac:(vm_compute; reflexivity))).
    reflexivity.
  - apply (proj1 (proj2 (backend_binding (M := sample_models) "raspiblitz"%string
                           cln_blitz_environ cln_blitz_settings
                           ltac:(vm_compute; reflexivity)))).
    reflexivity.
  - destruct (proj2 (proj2 (backend_binding (M := sample_models) "raspiblitz"%string
                              unknown_node_environ unknown_node_settings
                              ltac:(vm_compute; reflexivity))))
      as [A B]; [discriminate | discriminate |].
    split; [exact A|]. apply B; discriminate.
Defined.

(** A probe that is not implemented, on an lnd node. *)
Lemma register_outcomes_witness :
  (forall args : list string,
     fst (register_lightning_listener (M := sample_models) sample_settings
            not_implemented_probe)
     <> Raises (NotImplementedError args))
  /\ register_lightning_listener (M := sample_models) sample_settings
       not_implemented_probe
     = (Raises (HTTPException HTTP_501_NOT_IMPLEMENTED "get_ln_info not implemented"%string),
        []).
Proof.
  split.
  - apply (proj1 (register_outcomes (M := sample_models) sample_settings
                    not_implemented_probe)).
  - apply (proj2 (proj2 (register_outcomes (M := sample_models) sample_settings
                           not_implemented_probe))
             "get_ln_info not implemented"%string ["cln"%string]).
    + discriminate.
    + discriminate.
    + eexists; reflexivity.
    + reflexivity.
Defined.

(** Both streams have ended; a payment and a second of time later
    neither listener has done anything. *)
Lemma ended_stream_stays_silent_witness :
  exists s' : @State sample_models,
    run sample_settings [SendCoinsReturns; Tick 1%Q]
      (state_after sample_settings streams_end_schedule) = Some s'
    /\ (invoice_task s' = invoice_task (state_after sample_settings streams_end_schedule)
        /\ invoice_listener_effects (log s')
           = invoice_listener_effects
               (log (state_after sample_settings streams_end_schedule))
        /\ invoice_channel (log s')
           = invoice_channel (log (state_after sample_settings streams_end_schedule))
        /\ invoices_delivered [SendCoinsReturns; Tick (M := sample_models) 1%Q] = [])
    /\ (forward_task s' = forward_task (state_after sample_settings streams_end_schedule)
        /\ forwards_delivered [SendCoinsReturns; Tick (M := sample_models) 1%Q] = []
        /\ revenue_fetches (log s') + pending is_fwd_waiting s'
           <= revenue_fetches (log (state_after sample_settings streams_end_schedule))
              + pending is_fwd_waiting
                  (state_after sample_settings streams_end_schedule)).
Proof.
  eexists. split; [vm_compute; reflexivity|].
  match goal with
  | |- context [invoice_task ?s = _] =>
      destruct (ended_stream_stays_silent (M := sample_models) sample_settings
                  [SendCoinsReturns; Tick 1%Q]
                  (state_after sample_settings streams_end_schedule) s)
        as [A B]; [vm_compute; reflexivity|]
  end.
  split.
  - apply A. vm_compute. discriminate.
  - apply B. vm_compute. discriminate.
Defined.

(** [sample_day]: three polls, the second repeating the first, and two
    fetches of the same balance. *)
Lemma channels_carry_the_replies_witness :
  exists s : @State sample_models,
    run sample_settings sample_day registered = Some s
    /\ ln_info_channel (log s) = squash (infos_returned sample_day)
    /\ ln_info_lite_channel (log s)
       = squash (from_lninfo (Models := sample_models) <$> infos_returned sample_day)
    /\ wallet_balance_channel (log s) = squash (balances_returned sample_day)
    /\ fee_revenue_channel (log s) = revenues_returned sample_day.
Proof.
  eexists. split; [vm_compute; reflexivity|].
  apply (channels_carry_the_replies sample_settings sample_day).
  vm_compute; reflexivity.
Defined.
